(** * The listener service of Merlin (pkg/services/listeners/listeners.go)

    A shallow embedding of [ListenerService]: the protocol dispatch of
    [NewListener], the default-option aggregation, the lookups across the
    per-protocol repositories and the Start / Stop / Restart life cycle,
    followed by the properties of the specification that are about them.

    Go values are modelled as follows.
    - [map[string]string] is a [gmap string string]; a Go map has no
      iteration order, see [range_order].
    - [uuid.UUID] ([16]byte) is the 128-bit number it encodes, an [N].
    - [error] is the text of [err.Error()]; every error of this file is built
      with [fmt.Errorf], so the text is all there is to it.
    - a method of [*ListenerService] is a function on the [World]: the three
      repositories the service refers to, and the log of the calls made on
      Server objects. *)

From Stdlib Require Import Ascii.
From stdpp Require Import base gmap strings list sorting pretty.

Local Open Scope Z_scope.
Local Open Scope string_scope.
#[local] Set Default Proof Using "Type".

(** ** Strings *)

(** The double quote character, for the one message that quotes a key. *)
Definition dquote : string := String (ascii_of_nat 34) EmptyString.

Definition is_upper (c : ascii) : bool :=
  let n := nat_of_ascii c in (65 <=? n)%nat && (n <=? 90)%nat.

Definition is_lower (c : ascii) : bool :=
  let n := nat_of_ascii c in (97 <=? n)%nat && (n <=? 122)%nat.

Definition lower_ascii (c : ascii) : ascii :=
  if is_upper c then ascii_of_nat (nat_of_ascii c + 32) else c.

Definition upper_ascii (c : ascii) : ascii :=
  if is_lower c then ascii_of_nat (nat_of_ascii c - 32) else c.

(** [strings.ToLower] on the bytes of the string: 'A'..'Z' go to 'a'..'z',
    every other byte is kept.  Go maps runes, not bytes; the two agree on
    ASCII text, and outside ASCII Go's result is either not ASCII or holds a
    'k' or an 'i' (the only ASCII letters that are the lower case of a rune
    outside ASCII), so in both readings such a string differs from every
    protocol name the service compares it with. *)
Fixpoint ToLower (s : string) : string :=
  match s with
  | EmptyString => EmptyString
  | String c r => String (lower_ascii c) (ToLower r)
  end.

(** [casing_of s n]: [s] is [n] in some letter-casing, that is, [s] is [n]
    with any of its lower-case letters replaced by the upper-case one. *)
Fixpoint casing_of (s n : string) : bool :=
  match s, n with
  | EmptyString, EmptyString => true
  | String c s', String d n' =>
      (Ascii.eqb c d || Ascii.eqb c (upper_ascii d)) && casing_of s' n'
  | _, _ => false
  end.

(** [fmt.Sprintf("%d", z)] *)
Definition fmt_d (z : Z) : string := pretty z.

(** ** Identifiers *)

Abbreviation UUID := N.

Definition hex_digit (n : N) : ascii :=
  default "0"%char (String.get (N.to_nat n) "0123456789abcdef").

(** The lowest [digits] hexadecimal digits of [n], most significant first. *)
Fixpoint hex (digits : nat) (n : N) : string :=
  match digits with
  | O => EmptyString
  | S d => hex d (n / 16)%N +:+ String (hex_digit (n mod 16)%N) EmptyString
  end.

(** [uuid.UUID.String()]: the canonical 8-4-4-4-12 form. *)
Definition uuid_String (u : UUID) : string :=
  hex 8 (N.shiftr u 96) +:+ "-" +:+ hex 4 (N.shiftr u 80) +:+ "-" +:+
  hex 4 (N.shiftr u 64) +:+ "-" +:+ hex 4 (N.shiftr u 48) +:+ "-" +:+ hex 12 u.

(** ** Results *)

(** What a call returns: a value with [err == nil], an error with the text of
    [err.Error()], or a run-time panic (the only one this file can raise is
    the dereference of a nil pointer). *)
Inductive result (A : Type) : Type :=
| Ok (a : A)
| Err (e : string)
| Fault.
Arguments Ok {A} a.
Arguments Err {A} e.
Arguments Fault {A}.

(** [if err != nil { return nil, fmt.Errorf(prefix + "%s", err) }] *)
Definition wrap_result {A} (prefix : string) (r : result A) : result A :=
  match r with
  | Ok a => Ok a
  | Err e => Err (prefix +:+ e)
  | Fault => Fault
  end.

(** ** Entities *)

(** Modelled from the spec: the Server of pkg/servers/http, whose code is not
    in this file.  It is the bound network-accepting process of an HTTP-family
    listener and is built from the option map; the service only stores it,
    hands it to the listener, and calls its [Start] and [Stop]. *)
Record Server : Type := {
  srv_id : UUID;
  srv_protocol : Z;
  srv_options : gmap string string;
}.

(** Modelled from the spec: the listener of pkg/listeners/http.  An
    HTTP-family Listener always carries exactly one Server reference. *)
Record http_Listener : Type := {
  http_id : UUID;
  http_name : string;
  http_options : gmap string string;
  http_server : Server;
}.

(** Modelled from the spec: the listener of pkg/listeners/tcp.  A raw-socket
    Listener never carries a Server reference. *)
Record tcp_Listener : Type := {
  tcp_id : UUID;
  tcp_name : string;
  tcp_options : gmap string string;
}.

(** The interface [listeners.Listener]; the service only ever puts a
    [*http.Listener] or a [*tcp.Listener] behind it.  Its methods [ID],
    [Name], [Protocol] and [Server] are implemented in the listener packages;
    they are modelled from the spec as the fields of the record behind the
    interface. *)
Inductive listeners_Listener : Type :=
| HTTPListener (l : http_Listener)
| TCPListener (l : tcp_Listener).

(** Modelled from the spec: [listener.ID()], the identifier of the record. *)
Definition ID (l : listeners_Listener) : UUID :=
  match l with HTTPListener h => http_id h | TCPListener t => tcp_id t end.

(** Modelled from the spec: [listener.Name()], the name of the record. *)
Definition Name (l : listeners_Listener) : string :=
  match l with HTTPListener h => http_name h | TCPListener t => tcp_name t end.

(** Modelled from the spec: [listener.Server()], a
    [*servers.ServerInterface].  An HTTP-family listener returns the pointer
    to its Server; a raw-socket listener carries none, and [None] is the nil
    pointer it returns. *)
Definition Server_of (l : listeners_Listener) : option Server :=
  match l with HTTPListener h => Some (http_server h) | TCPListener _ => None end.

(** A call the service makes on a Server object: the synchronous
    [server.Stop()], and [go server.Start()], the launch of the blocking start
    routine on a goroutine of its own. *)
Inductive Event : Type :=
| StopCalled (s : Server)
| StartLaunched (s : Server).

(** The texts of the errors of an in-memory repository. *)
Record RepoErrors : Type := {
  err_duplicate : UUID → string;
  err_no_id : UUID → string;
  err_no_name : string → string;
}.

(** ** The packages the service is written against

    Their code is not in this file: the protocol tags of pkg/listeners, the
    factories and default options of pkg/listeners/http, pkg/listeners/tcp
    and pkg/servers/http, the error texts of the memory repositories, and the
    outcome of [Stop] on a Server.  Every definition below is parametric in
    them. *)
Class Collaborators : Type := {
  (** the constants [listeners.UNKNOWN], [listeners.HTTP], [listeners.TCP];
      they are the cases of one [switch], hence distinct *)
  listeners_UNKNOWN : Z;
  listeners_HTTP : Z;
  listeners_TCP : Z;
  listeners_tags_distinct :
    NoDup [listeners_UNKNOWN; listeners_HTTP; listeners_TCP];
  (** [servers.FromString] *)
  servers_FromString : string → Z;
  (** [httpServer.New], [httpServer.GetDefaultOptions] *)
  httpServer_New : gmap string string → result Server;
  httpServer_GetDefaultOptions : Z → gmap string string;
  (** [http.NewHTTPListener], which binds the listener to the server it is
      given, and [http.DefaultOptions] *)
  http_NewHTTPListener : Server → gmap string string → result http_Listener;
  http_NewHTTPListener_bound :
    ∀ s o l, http_NewHTTPListener s o = Ok l → http_server l = s;
  http_DefaultOptions : gmap string string;
  (** [tcp.NewTCPListener], [tcp.DefaultOptions] *)
  tcp_NewTCPListener : gmap string string → result tcp_Listener;
  tcp_DefaultOptions : gmap string string;
  (** the error of [server.Stop()], if any, given the calls made so far *)
  server_Stop : Server → list Event → option string;
  (** error texts of the three repositories *)
  httpRepo_errors : RepoErrors;
  tcpRepo_errors : RepoErrors;
  httpServerRepo_errors : RepoErrors;
  (** whether a [range] loop has one variable per iteration (Go 1.22 and
      later) or one for the whole loop *)
  loopvar_per_iteration : bool;
}.

(** ** Repositories *)

Module Repository.
Section repo.
Context {T : Type} (key : T → UUID) (name : T → string)
        (with_options : gmap string string → T → T) (errs : RepoErrors).

(** Modelled from the spec: the in-memory repositories (pkg/.../memory) are
    not in this file.  [Add] fails with a duplicate error on identifier
    collision. *)
Definition Add (x : T) (r : gmap UUID T) : result (gmap UUID T) :=
  match r !! key x with
  | Some _ => Err (err_duplicate errs (key x))
  | None => Ok (<[key x := x]> r)
  end.

(** Modelled from the spec: lookup by identifier fails with a not-found
    error when absent. *)
Definition ByID (id : UUID) (r : gmap UUID T) : result T :=
  match r !! id with
  | Some x => Ok x
  | None => Err (err_no_id errs id)
  end.

(** Modelled from the spec: every stored record. *)
Definition All (r : gmap UUID T) : list T := (map_to_list r).*2.

(** Modelled from the spec: lookup by name fails with a not-found error
    when absent. *)
Definition ByName (n : string) (r : gmap UUID T) : result T :=
  match list_find (λ x, name x = n) (All r) with
  | Some (_, x) => Ok x
  | None => Err (err_no_name errs n)
  end.

(** Modelled from the spec: [RemoveByID] fails with a not-found error if
    the target is absent. *)
Definition RemoveByID (id : UUID) (r : gmap UUID T) : result (gmap UUID T) :=
  match r !! id with
  | Some _ => Ok (delete id r)
  | None => Err (err_no_id errs id)
  end.

(** Modelled from the spec: [UpdateOptions] replaces the stored option map
    and fails with a not-found error if the id is absent. *)
Definition UpdateOptions (id : UUID) (o : gmap string string)
    (r : gmap UUID T) : result (gmap UUID T) :=
  match r !! id with
  | Some x => Ok (<[id := with_options o x]> r)
  | None => Err (err_no_id errs id)
  end.

(** The repository holds a record of that name. *)
Definition holds_name (n : string) (r : gmap UUID T) : Prop :=
  ∃ id x, r !! id = Some x ∧ name x = n.
End repo.
End Repository.

(** ** The service and its world *)

(** [type ListenerService struct] *)
Record ListenerService : Type := {
  tcpRepo : gmap UUID tcp_Listener;
  httpRepo : gmap UUID http_Listener;
  httpServerRepo : gmap UUID Server;
}.

(** What a method can read and change: the repositories, and the calls made
    on Server objects so far, oldest first. *)
Record World : Type := {
  service : ListenerService;
  calls : list Event;
}.

Definition set_tcpRepo (r : gmap UUID tcp_Listener) (w : World) : World :=
  {| service := {| tcpRepo := r; httpRepo := httpRepo (service w);
                   httpServerRepo := httpServerRepo (service w) |};
     calls := calls w |}.

Definition set_httpRepo (r : gmap UUID http_Listener) (w : World) : World :=
  {| service := {| tcpRepo := tcpRepo (service w); httpRepo := r;
                   httpServerRepo := httpServerRepo (service w) |};
     calls := calls w |}.

Definition set_httpServerRepo (r : gmap UUID Server) (w : World) : World :=
  {| service := {| tcpRepo := tcpRepo (service w);
                   httpRepo := httpRepo (service w); httpServerRepo := r |};
     calls := calls w |}.

Definition record_call (e : Event) (w : World) : World :=
  {| service := service w; calls := calls w ++ [e] |}.

(** A method: from the world before the call to the world after it and
    what is returned. *)
Definition M (A : Type) : Type := World → World * result A.

Definition ret {A} (a : A) : M A := λ w, (w, Ok a).

Definition fail {A} (e : string) : M A := λ w, (w, Err e).

Definition lift {A} (r : result A) : M A := λ w, (w, r).

(** Sequencing: an error or a panic of the first call ends the method. *)
Definition bind {A B} (m : M A) (k : A → M B) : M B := λ w,
  match m w with
  | (w', Ok a) => k a w'
  | (w', Err e) => (w', Err e)
  | (w', Fault) => (w', Fault)
  end.

(** [x, err := m; if err != nil { return fmt.Errorf(prefix + "%s", err) }] *)
Definition wrap {A} (prefix : string) (m : M A) : M A := λ w,
  let '(w', r) := m w in (w', wrap_result prefix r).

(** [*p]: a nil pointer dereference panics. *)
Definition deref {A} (p : option A) : M A := λ w,
  match p with
  | Some a => (w, Ok a)
  | None => (w, Fault)
  end.

(** A repository call that replaces the stored map when it succeeds. *)
Definition update {R} (get : World → R) (set : R → World → World)
    (f : R → result R) : M unit := λ w,
  match f (get w) with
  | Ok r => (set r w, Ok tt)
  | Err e => (w, Err e)
  | Fault => (w, Fault)
  end.

Global Instance M_ret : MRet M := @ret.
Global Instance M_bind : MBind M := λ A B k m, bind m k.

(** The branch a [switch] on the protocol takes. *)
Inductive Branch : Type := HTTPBranch | TCPBranch | DefaultBranch.

(** The names of the HTTP family and of the raw-socket protocol, as the
    [case] lists of [NewListener] spell them. *)
Definition http_family : list string := ["http"; "https"; "h2c"; "http2"; "http3"].
Definition raw_socket : string := "tcp".

(** [switch s { case "http", "https", "h2c", "http2", "http3": ..
               case "tcp": ..  default: .. }] *)
Definition dispatch (s : string) : Branch :=
  if bool_decide (s ∈ http_family) then HTTPBranch
  else if bool_decide (s = raw_socket) then TCPBranch
  else DefaultBranch.

(** Go leaves the iteration order of a map unspecified: [l] is an order in
    which [range m] may visit the entries of [m] when it is any arrangement
    of them. *)
Definition range_order (m : gmap string string) (l : list (string * string)) : Prop :=
  l ≡ₚ map_to_list m.

(** The keys of a sequence of pairs are in strictly ascending byte-wise
    lexicographic order. *)
Definition keys_ascending (l : list (string * string)) : Prop :=
  Sorted (λ a b, String.ltb a b) l.*1.

(** [sort.Strings] *)
Definition sort_Strings (keys : list string) : list string :=
  merge_sort String.le keys.

Section service.
Context {E : Collaborators}.

(** Modelled from the spec: [listeners.FromString] is not in this file.
    The tag is determined by case-insensitive matching of the input
    string; the five HTTP-family names share the tag of the HTTP
    listener. *)
Definition listeners_FromString (protocol : string) : Z :=
  let s := ToLower protocol in
  if bool_decide (s ∈ http_family) then listeners_HTTP
  else if bool_decide (s = raw_socket) then listeners_TCP
  else listeners_UNKNOWN.

(** Modelled from the spec: [listener.Protocol()], the Protocol tag of the
    listener. *)
Definition Protocol (l : listeners_Listener) : Z :=
  match l with
  | HTTPListener _ => listeners_HTTP
  | TCPListener _ => listeners_TCP
  end.

(** Calls on the repositories of the service. *)
Definition httpServerRepo_Add (s : Server) : M unit :=
  update (httpServerRepo ∘ service) set_httpServerRepo
         (Repository.Add srv_id httpServerRepo_errors s).
Definition httpRepo_Add (l : http_Listener) : M unit :=
  update (httpRepo ∘ service) set_httpRepo
         (Repository.Add http_id httpRepo_errors l).
Definition tcpRepo_Add (l : tcp_Listener) : M unit :=
  update (tcpRepo ∘ service) set_tcpRepo
         (Repository.Add tcp_id tcpRepo_errors l).
Definition httpRepo_RemoveByID (id : UUID) : M unit :=
  update (httpRepo ∘ service) set_httpRepo
         (Repository.RemoveByID httpRepo_errors id).
Definition tcpRepo_RemoveByID (id : UUID) : M unit :=
  update (tcpRepo ∘ service) set_tcpRepo
         (Repository.RemoveByID tcpRepo_errors id).
Definition httpRepo_UpdateOptions (id : UUID) (o : gmap string string) : M unit :=
  update (httpRepo ∘ service) set_httpRepo
         (Repository.UpdateOptions
            (λ o l, {| http_id := http_id l; http_name := http_name l;
                       http_options := o; http_server := http_server l |})
            httpRepo_errors id o).
Definition tcpRepo_UpdateOptions (id : UUID) (o : gmap string string) : M unit :=
  update (tcpRepo ∘ service) set_tcpRepo
         (Repository.UpdateOptions
            (λ o l, {| tcp_id := tcp_id l; tcp_name := tcp_name l;
                       tcp_options := o |})
            tcpRepo_errors id o).

(** [go server.Start()] *)
Definition launch_Start (s : Server) : M unit := λ w,
  (record_call (StartLaunched s) w, Ok tt).

(** [server.Stop()] *)
Definition call_Stop (s : Server) : M unit := λ w,
  (record_call (StopCalled s) w,
   match server_Stop s (calls w) with
   | None => Ok tt
   | Some e => Err e
   end).

(** *** NewListener *)

(** The body of [case "http", "https", "h2c", "http2", "http3":] *)
Definition NewListener_http (options : gmap string string) : M listeners_Listener :=
  hServer ← wrap "pkg/services/listeners.CreateListener(): "
              (lift (httpServer_New options));
  _ ← wrap "pkg/services/listeners.CreateListener(): "
        (httpServerRepo_Add hServer);
  hListener ← wrap "pkg/services/listeners.CreateListener(): "
                (lift (http_NewHTTPListener hServer options));
  _ ← wrap "pkg/services/listeners.CreateListener(): "
        (httpRepo_Add hListener);
  mret (HTTPListener hListener).

(** The body of [case "tcp":] *)
Definition NewListener_tcp (options : gmap string string) : M listeners_Listener :=
  tListener ← wrap "pkg/services/listeners.CreateListener(): "
                (lift (tcp_NewTCPListener options));
  _ ← wrap "pkg/services/listeners.CreateListener(): "
        (tcpRepo_Add tListener);
  mret (TCPListener tListener).

Definition NewListener (options : gmap string string) : M listeners_Listener :=
  match options !! "Protocol" with
  | None =>
      fail ("pkg/services/listeners.CreateListener(): the options map did not contain the "
            +:+ dquote +:+ "Protocol" +:+ dquote +:+ " key")
  | Some protocol =>
      match dispatch (ToLower protocol) with
      | HTTPBranch => NewListener_http options
      | TCPBranch => NewListener_tcp options
      | DefaultBranch =>
          fail ("pkg/services/listeners.CreateListener(): unhandled server type "
                +:+ fmt_d (servers_FromString protocol))
      end
  end.

(** *** DefaultOptions *)

(** [for k, v := range serverOptions { listenerOptions[k] = v }] *)
Definition add_server_options (listenerOptions serverOptions : gmap string string)
    : gmap string string :=
  map_fold (λ k v acc, <[k := v]> acc) listenerOptions serverOptions.

(** [for key := range listenerOptions { keys = append(keys, key) }]
    followed by [sort.Strings(keys)] *)
Definition sorted_keys (listenerOptions : gmap string string) : list string :=
  sort_Strings (map_to_list listenerOptions).*1.

(** [for _, key := range keys { options[key] = listenerOptions[key] }];
    indexing a map with an absent key gives the empty string. *)
Definition rebuild (listenerOptions : gmap string string) (keys : list string)
    : gmap string string :=
  foldl (λ options key, <[key := default EmptyString (listenerOptions !! key)]> options)
        ∅ keys.

Definition DefaultOptions (protocol : string) : result (gmap string string) :=
  let tag := listeners_FromString protocol in
  if bool_decide (tag = listeners_HTTP) then
    let listenerOptions :=
      add_server_options http_DefaultOptions
        (httpServer_GetDefaultOptions (servers_FromString protocol)) in
    Ok (rebuild listenerOptions (sorted_keys listenerOptions))
  else if bool_decide (tag = listeners_TCP) then
    let listenerOptions := add_server_options tcp_DefaultOptions ∅ in
    Ok (rebuild listenerOptions (sorted_keys listenerOptions))
  else
    Err ("pkg/services/listeners.DefaultOptions(): unhandled server type: "
         +:+ protocol).

(** *** Lookups *)

Definition Listener (id : UUID) : M listeners_Listener := λ w,
  match Repository.ByID httpRepo_errors id (httpRepo (service w)) with
  | Ok httpListener => (w, Ok (HTTPListener httpListener))
  | _ =>
      match Repository.ByID tcpRepo_errors id (tcpRepo (service w)) with
      | Ok tcpListener => (w, Ok (TCPListener tcpListener))
      | _ => (w, Err ("pkg/services/listeners.GetListenerByID(): could not find listener "
                      +:+ uuid_String id))
      end
  end.

(** What the pointers [&listener] taken in a [range] loop refer to once
    the loop is over: an element each, or all of them the variable of the
    loop, which holds the last element. *)
Definition range_addresses {A} (xs : list A) : list A :=
  if loopvar_per_iteration then xs
  else match last xs with
       | Some x => replicate (length xs) x
       | None => []
       end.

Definition Listeners (ls : ListenerService) : list listeners_Listener :=
  (HTTPListener <$> range_addresses (Repository.All (httpRepo ls)))
  ++ (TCPListener <$> range_addresses (Repository.All (tcpRepo ls))).

Definition ListenerNames (ls : ListenerService) : list string :=
  (http_name <$> Repository.All (httpRepo ls))
  ++ (tcp_name <$> Repository.All (tcpRepo ls)).

Definition ListenerByName (name : string) : M listeners_Listener := λ w,
  match Repository.ByName http_name httpRepo_errors name (httpRepo (service w)) with
  | Ok listener => (w, Ok (HTTPListener listener))
  | _ =>
      match Repository.ByName tcp_name tcpRepo_errors name (tcpRepo (service w)) with
      | Ok tcpListener => (w, Ok (TCPListener tcpListener))
      | Err err => (w, Err ("pkg/services/listeners.GetListenerByName(): " +:+ err))
      | Fault => (w, Fault)
      end
  end.

Definition ListenersByType (protocol : Z) (ls : ListenerService)
    : list listeners_Listener :=
  if bool_decide (protocol = listeners_HTTP) then
    HTTPListener <$> range_addresses (Repository.All (httpRepo ls))
  else if bool_decide (protocol = listeners_TCP) then
    TCPListener <$> range_addresses (Repository.All (tcpRepo ls))
  else [].

(** *** Remove, SetOptions *)

Definition Remove (id : UUID) : M unit :=
  listener ← Listener id;
  if bool_decide (Protocol listener = listeners_HTTP) then httpRepo_RemoveByID id
  else if bool_decide (Protocol listener = listeners_TCP) then tcpRepo_RemoveByID id
  else fail ("pkg/services/listeners.Remove(): unhandled listener protocol type "
             +:+ fmt_d (Protocol listener) +:+ " for listener " +:+ uuid_String id).

Definition SetOptions (id : UUID) (options : gmap string string) : M unit :=
  listener ← Listener id;
  if bool_decide (Protocol listener = listeners_HTTP) then
    httpRepo_UpdateOptions id options
  else if bool_decide (Protocol listener = listeners_TCP) then
    tcpRepo_UpdateOptions id options
  else fail ("pkg/services/listeners.SetOptions(): unhandled protocol "
             +:+ fmt_d (Protocol listener) +:+ " for listener " +:+ uuid_String id).

(** *** Start, Stop, Restart *)

Definition Start (id : UUID) : M unit :=
  listener ← wrap "pkg/services/listeners.Start(): " (Listener id);
  if bool_decide (Protocol listener = listeners_HTTP) then
    server ← deref (Server_of listener);
    launch_Start server
  else if bool_decide (Protocol listener = listeners_TCP) then
    mret tt
  else fail ("pkg/services/listeners.Start(): unhandled listener protocol: "
             +:+ fmt_d (Protocol listener)).

Definition Stop (id : UUID) : M unit :=
  listener ← wrap "pkg/services/listeners.Restart(): " (Listener id);
  server ← deref (Server_of listener);
  call_Stop server.

Definition Restart (id : UUID) : M unit :=
  listener ← wrap "pkg/services/listeners.Restart(): " (Listener id);
  server ← deref (Server_of listener);
  _ ← wrap "pkg/services/listeners.Restart(): " (call_Stop server);
  launch_Start server.
End service.

(** ** A sample of collaborators

    Concrete packages to run the service on: tags 0, 1, 2; a Server factory
    that rejects an option map naming a certificate; listener factories that
    need a name; three default option sets. *)
Module Sample.
Definition servers_FromString (protocol : string) : Z :=
  let s := ToLower protocol in
  if bool_decide (s = "http") then 1
  else if bool_decide (s = "https") then 2
  else if bool_decide (s = "h2c") then 3
  else if bool_decide (s = "http2") then 4
  else if bool_decide (s = "http3") then 5
  else 0.

Definition httpServer_New (o : gmap string string) : result Server :=
  match o !! "Cert" with
  | Some _ => Err "the certificate could not be read"
  | None =>
      Ok {| srv_id := 4096;
            srv_protocol := servers_FromString (default EmptyString (o !! "Protocol"));
            srv_options := o |}
  end.

Definition httpServer_GetDefaultOptions (protocol : Z) : gmap string string :=
  {[ "Interface" := "127.0.0.1";
     "Port" := if bool_decide (protocol = 1) then "80" else "443";
     "Protocol" := "h2" ]}.

Definition http_NewHTTPListener (s : Server) (o : gmap string string)
    : result http_Listener :=
  match o !! "Name" with
  | Some n => Ok {| http_id := 17; http_name := n; http_options := o;
                    http_server := s |}
  | None => Err "a listener needs a name"
  end.

Definition http_DefaultOptions : gmap string string :=
  {[ "Name" := "Default"; "PSK" := "merlin"; "Protocol" := "https" ]}.

Definition tcp_NewTCPListener (o : gmap string string) : result tcp_Listener :=
  match o !! "Name" with
  | Some n => Ok {| tcp_id := 18; tcp_name := n; tcp_options := o |}
  | None => Err "a listener needs a name"
  end.

Definition tcp_DefaultOptions : gmap string string :=
  {[ "Interface" := "127.0.0.1"; "Name" := "Default"; "Port" := "7777" ]}.

(** A server whose port is 0 cannot be stopped. *)
Definition server_Stop (s : Server) (_ : list Event) : option string :=
  if bool_decide (srv_options s !! "Port" = Some "0")
  then Some "the server is not running" else None.

Definition errors : RepoErrors :=
  {| err_duplicate id := "the id is already in use: " +:+ uuid_String id;
     err_no_id id := "there is no record with the id " +:+ uuid_String id;
     err_no_name n := "there is no record with the name " +:+ n |}.
End Sample.

Definition sample_tags_distinct : NoDup [0; 1; 2].
Proof. apply (bool_decide_unpack _). by vm_compute. Qed.

Definition sample_bound (s : Server) (o : gmap string string) (l : http_Listener) :
  Sample.http_NewHTTPListener s o = Ok l → http_server l = s.
Proof.
  unfold Sample.http_NewHTTPListener. destruct (o !! "Name"); [|done].
  by intros [= <-].
Qed.

Definition sample : Collaborators :=
  {| listeners_UNKNOWN := 0; listeners_HTTP := 1; listeners_TCP := 2;
     listeners_tags_distinct := sample_tags_distinct;
     servers_FromString := Sample.servers_FromString;
     httpServer_New := Sample.httpServer_New;
     httpServer_GetDefaultOptions := Sample.httpServer_GetDefaultOptions;
     http_NewHTTPListener := Sample.http_NewHTTPListener;
     http_NewHTTPListener_bound := sample_bound;
     http_DefaultOptions := Sample.http_DefaultOptions;
     tcp_NewTCPListener := Sample.tcp_NewTCPListener;
     tcp_DefaultOptions := Sample.tcp_DefaultOptions;
     server_Stop := Sample.server_Stop;
     httpRepo_errors := Sample.errors;
     tcpRepo_errors := Sample.errors;
     httpServerRepo_errors := Sample.errors;
     loopvar_per_iteration := false |}.

Definition no_listeners : World :=
  {| service := {| tcpRepo := ∅; httpRepo := ∅; httpServerRepo := ∅ |};
     calls := [] |}.

Definition tcp_options_68 : gmap string string :=
  {[ "Protocol" := "TCP"; "Interface" := "0.0.0.0"; "Port" := "4444"; "Name" := "raw" ]}.

(** The option maps of the two examples of the specification, with a name
    for the listener. *)
Definition tcp_example : gmap string string :=
  {[ "Protocol" := "TCP"; "Interface" := "0.0.0.0"; "Port" := "4444";
     "Name" := "raw" ]}.

Definition https_example : gmap string string :=
  {[ "Protocol" := "HTTPS"; "Interface" := "0.0.0.0"; "Port" := "443";
     "Cert" := "/no/such/file"; "Name" := "web" ]}.

(** Sample records and worlds. *)
Definition edge_server : Server :=
  {| srv_id := 4096; srv_protocol := 2;
     srv_options := {[ "Interface" := "0.0.0.0"; "Port" := "0" ]} |}.

Definition web : http_Listener :=
  {| http_id := 17; http_name := "edge";
     http_options := {[ "Protocol" := "https" ]}; http_server := edge_server |}.

Definition web18 : http_Listener :=
  {| http_id := 18; http_name := "front";
     http_options := {[ "Protocol" := "http" ]}; http_server := edge_server |}.

Definition raw : tcp_Listener :=
  {| tcp_id := 18; tcp_name := "edge"; tcp_options := {[ "Protocol" := "tcp" ]} |}.

(** Only the raw-socket listener [raw]. *)
Definition raw_only : World :=
  {| service := {| tcpRepo := {[ 18%N := raw ]}; httpRepo := ∅;
                   httpServerRepo := ∅ |};
     calls := [] |}.

(** An HTTP-family and a raw-socket listener of the same name. *)
Definition both_named_edge : World :=
  {| service := {| tcpRepo := {[ 18%N := raw ]}; httpRepo := {[ 17%N := web ]};
                   httpServerRepo := {[ 4096%N := edge_server ]} |};
     calls := [] |}.

(** An HTTP-family listener whose id is 18, and no raw-socket listener. *)
Definition http_holds_18 : World :=
  {| service := {| tcpRepo := ∅; httpRepo := {[ 18%N := web18 ]};
                   httpServerRepo := {[ 4096%N := edge_server ]} |};
     calls := [] |}.

(** ** Command-line completion *)

(** [List]: the function it returns ignores the line typed so far and
    gives the names of the stored listeners. *)
Definition List (ls : ListenerService) (line : string) : list string :=
  ListenerNames ls.

Section completer.
Context {E : Collaborators} {V : Type}.
(** [listeners.Listeners()], the listener types of pkg/listeners; the
    package variable [servers.RegisteredServers], a map keyed by server
    protocol; [servers.Protocol] and [listeners.String], the names of a
    server protocol and of a listener type.  None of them is in this file. *)
Variables (listener_types : list Z) (RegisteredServers : gmap Z V)
          (servers_Protocol : Z → string) (listeners_String : Z → string).

(** [CLICompleter]: the function it returns ignores the line typed so far.
    For the HTTP listener type it offers the name of every registered server
    protocol, in the order in which the map is traversed; for any other
    listener type it offers the name of the type. *)
Definition CLICompleter (line : string) : list string :=
  listener ← listener_types;
  if bool_decide (listener = listeners_HTTP)
  then servers_Protocol <$> (map_to_list RegisteredServers).*1
  else [listeners_String listener].
End completer.

(** ** More samples *)

(** The sample packages compiled with one loop variable per iteration. *)
Definition sample122 : Collaborators :=
  {| listeners_UNKNOWN := 0; listeners_HTTP := 1; listeners_TCP := 2;
     listeners_tags_distinct := sample_tags_distinct;
     servers_FromString := Sample.servers_FromString;
     httpServer_New := Sample.httpServer_New;
     httpServer_GetDefaultOptions := Sample.httpServer_GetDefaultOptions;
     http_NewHTTPListener := Sample.http_NewHTTPListener;
     http_NewHTTPListener_bound := sample_bound;
     http_DefaultOptions := Sample.http_DefaultOptions;
     tcp_NewTCPListener := Sample.tcp_NewTCPListener;
     tcp_DefaultOptions := Sample.tcp_DefaultOptions;
     server_Stop := Sample.server_Stop;
     httpRepo_errors := Sample.errors;
     tcpRepo_errors := Sample.errors;
     httpServerRepo_errors := Sample.errors;
     loopvar_per_iteration := true |}.

(** A Server that can be stopped, and a listener bound to it. *)
Definition front_server : Server :=
  {| srv_id := 4097; srv_protocol := 1;
     srv_options := {[ "Interface" := "0.0.0.0"; "Port" := "8080" ]} |}.

Definition front : http_Listener :=
  {| http_id := 21; http_name := "front";
     http_options := {[ "Protocol" := "http" ]}; http_server := front_server |}.

(** Two HTTP-family listeners and a raw-socket one. *)
Definition three_listeners : World :=
  {| service := {| tcpRepo := {[ 18%N := raw ]};
                   httpRepo := {[ 17%N := web; 21%N := front ]};
                   httpServerRepo := {[ 4096%N := edge_server; 4097%N := front_server ]} |};
     calls := [] |}.

(** An HTTP-family and a raw-socket listener with the same id. *)
Definition both_hold_18 : World :=
  {| service := {| tcpRepo := {[ 18%N := raw ]}; httpRepo := {[ 18%N := web18 ]};
                   httpServerRepo := {[ 4096%N := edge_server ]} |};
     calls := [] |}.

(** Option maps for an HTTP-family listener: complete, and without the name
    the listener factory of the sample asks for. *)
Definition http_named : gmap string string :=
  {[ "Protocol" := "HTTP"; "Port" := "8080"; "Name" := "front" ]}.

Definition http_unnamed : gmap string string :=
  {[ "Protocol" := "HTTP"; "Port" := "8080" ]}.

(** The Server the sample factory builds from an option map. *)
Definition sample_server (o : gmap string string) : Server :=
  {| srv_id := 4096;
     srv_protocol := Sample.servers_FromString (default EmptyString (o !! "Protocol"));
     srv_options := o |}.

(** * Properties *)

(** ** Letter-casing *)

Lemma lower_of_upper (c : ascii) :
  lower_ascii c = c → lower_ascii (upper_ascii c) = c.
Proof.
  destruct c as [[] [] [] [] [] [] [] []]; vm_compute; congruence.
Qed.

Lemma upper_of_lower (c : ascii) :
  lower_ascii c = c ∨ upper_ascii (lower_ascii c) = c.
Proof.
  destruct c as [[] [] [] [] [] [] [] []];
    ((left; reflexivity) || (right; reflexivity)).
Qed.

Lemma ToLower_String_fixed (c : ascii) (n : string) :
  ToLower (String c n) = String c n → lower_ascii c = c ∧ ToLower n = n.
Proof. simpl. by intros [= ? ?]. Qed.

(** A letter-casing of a lower-case name lowers to that name. *)
Lemma casing_of_ToLower (s n : string) :
  ToLower n = n → casing_of s n = true → ToLower s = n.
Proof.
  revert n. induction s as [|c s IH]; intros [|d n] Hn Hc; simpl in *; try done.
  apply ToLower_String_fixed in Hn as [Hd Hn].
  apply andb_true_iff in Hc as [Hcd Hc].
  rewrite (IH n Hn Hc). f_equal.
  apply orb_true_iff in Hcd as [->%Ascii.eqb_eq | ->%Ascii.eqb_eq]; [done|].
  by apply lower_of_upper.
Qed.

(** Every string is a letter-casing of what it lowers to. *)
Lemma casing_of_ToLower_self (s : string) : casing_of s (ToLower s) = true.
Proof.
  induction s as [|c s IH]; simpl; [done|].
  rewrite IH, andb_true_r. apply orb_true_iff.
  destruct (upper_of_lower c) as [-> | ->]; [left | right]; apply Ascii.eqb_refl.
Qed.

Lemma ToLower_iff_casing (s n : string) :
  ToLower n = n → ToLower s = n ↔ casing_of s n = true.
Proof.
  intros Hn. split; [intros <-; apply casing_of_ToLower_self|].
  by apply casing_of_ToLower.
Qed.

Lemma http_family_lower (n : string) : n ∈ http_family → ToLower n = n.
Proof.
  unfold http_family. rewrite !elem_of_cons, elem_of_nil.
  intros [->|[->|[->|[->|[->|[]]]]]]; reflexivity.
Qed.

Lemma dispatch_http (s : string) : dispatch s = HTTPBranch ↔ s ∈ http_family.
Proof.
  unfold dispatch. repeat case_bool_decide; naive_solver.
Qed.

Lemma raw_socket_not_http : raw_socket ∉ http_family.
Proof. apply (bool_decide_unpack _). by vm_compute. Qed.

Lemma dispatch_tcp (s : string) : dispatch s = TCPBranch ↔ s = raw_socket.
Proof.
  unfold dispatch. pose proof raw_socket_not_http.
  repeat case_bool_decide; naive_solver.
Qed.

Lemma dispatch_default (s : string) :
  dispatch s = DefaultBranch ↔ s ∉ raw_socket :: http_family.
Proof.
  unfold dispatch. rewrite not_elem_of_cons.
  repeat case_bool_decide; intuition congruence.
Qed.

(** ** NewListener *)

Section NewListener_properties.
Context {E : Collaborators}.

Lemma NewListener_branch (options : gmap string string) (p : string) :
  options !! "Protocol" = Some p →
  NewListener options =
    match dispatch (ToLower p) with
    | HTTPBranch => NewListener_http options
    | TCPBranch => NewListener_tcp options
    | DefaultBranch =>
        fail ("pkg/services/listeners.CreateListener(): unhandled server type "
              +:+ fmt_d (servers_FromString p))
    end.
Proof. intros Hp. unfold NewListener. by rewrite Hp. Qed.

(** A successful HTTP-family creation stores exactly one new Server and one
    new Listener, the Listener referring to that Server; nothing else
    changes. *)
Lemma NewListener_http_Ok (options : gmap string string) (w w' : World)
    (l : listeners_Listener) :
  NewListener_http options w = (w', Ok l) →
  ∃ s h, l = HTTPListener h ∧ http_server h = s
         ∧ httpServerRepo (service w) !! srv_id s = None
         ∧ httpServerRepo (service w') = <[srv_id s := s]> (httpServerRepo (service w))
         ∧ httpRepo (service w) !! http_id h = None
         ∧ httpRepo (service w') = <[http_id h := h]> (httpRepo (service w))
         ∧ tcpRepo (service w') = tcpRepo (service w)
         ∧ calls w' = calls w.
Proof.
  unfold NewListener_http, mbind, M_bind, bind, wrap, lift.
  unfold httpServerRepo_Add, httpRepo_Add, update, Repository.Add. cbn.
  destruct (httpServer_New options) as [s|e|] eqn:Hs; cbn; try done.
  destruct (httpServerRepo (service w) !! srv_id s) eqn:Hfree; cbn; try done.
  destruct (http_NewHTTPListener s options) as [h|e|] eqn:Hh; cbn; try done.
  destruct (httpRepo (service w) !! http_id h) eqn:Hfree'; cbn; try done.
  intros [= <- <-]. exists s, h. split_and!; try done.
  by apply (http_NewHTTPListener_bound s options).
Qed.

(** The raw-socket branch never touches the Server repository. *)
Lemma NewListener_tcp_servers (options : gmap string string) (w : World) :
  httpServerRepo (service (fst (NewListener_tcp options w))) =
    httpServerRepo (service w).
Proof.
  unfold NewListener_tcp, mbind, M_bind, bind, wrap, lift.
  unfold tcpRepo_Add, update, Repository.Add. cbn.
  destruct (tcp_NewTCPListener options) as [t|e|]; cbn; try done.
  by destruct (tcpRepo (service w) !! tcp_id t).
Qed.

Lemma casing_selects_http (p n : string) :
  n ∈ http_family → casing_of p n = true → dispatch (ToLower p) = HTTPBranch.
Proof.
  intros Hn Hc. apply dispatch_http.
  by rewrite (casing_of_ToLower p n (http_family_lower n Hn) Hc).
Qed.

Lemma casing_selects_tcp (p : string) :
  casing_of p raw_socket = true → dispatch (ToLower p) = TCPBranch.
Proof.
  intros Hc. apply dispatch_tcp. by apply casing_of_ToLower.
Qed.

Lemma no_casing_selects_default (p : string) :
  (∀ n, n ∈ raw_socket :: http_family → casing_of p n ≠ true) →
  dispatch (ToLower p) = DefaultBranch.
Proof.
  intros Hno. apply dispatch_default. intros Hin.
  apply (Hno _ Hin), casing_of_ToLower_self.
Qed.

(** C4.  For every option map without the key "Protocol", NewListener
    returns the validation error (the options map did not contain the
    "Protocol" key) and leaves the world as it was: no repository gains a
    record. *)
Theorem NewListener_without_Protocol (options : gmap string string) (w : World) :
  options !! "Protocol" = None →
  NewListener options w =
    (w, Err ("pkg/services/listeners.CreateListener(): the options map did not contain the "
             +:+ dquote +:+ "Protocol" +:+ dquote +:+ " key")).
Proof. intros Hp. unfold NewListener. by rewrite Hp. Qed.

(** C2.  For every option map whose Protocol value is an HTTP-family name
    in some letter-casing, if the construction of the Server fails then
    NewListener returns an error, the one of the construction under the
    prefix of the operation, and the world is as before: neither a Server
    nor a Listener has been stored. *)
Theorem NewListener_http_server_failure
    (options : gmap string string) (p n e : string) (w : World) :
  options !! "Protocol" = Some p →
  n ∈ http_family →
  casing_of p n = true →
  httpServer_New options = Err e →
  NewListener options w =
    (w, Err ("pkg/services/listeners.CreateListener(): " +:+ e)).
Proof.
  intros Hp Hn Hc He.
  rewrite (NewListener_branch options p Hp), (casing_selects_http p n Hn Hc).
  unfold NewListener_http, mbind, M_bind, bind, wrap, lift. by rewrite He.
Qed.

(** C5.  The dispatch of NewListener is case-insensitive and total: a
    Protocol value that is an HTTP-family name in any letter-casing runs
    the HTTP branch, one that is the raw-socket name in any letter-casing
    runs the raw-socket branch, and a value that is no letter-casing of a
    supported name makes NewListener fail with the unhandled-server-type
    error, the world untouched. *)
Theorem NewListener_dispatch (options : gmap string string) (p : string) :
  options !! "Protocol" = Some p →
  (∀ n, n ∈ http_family → casing_of p n = true →
        NewListener options = NewListener_http options)
  ∧ (casing_of p raw_socket = true →
     NewListener options = NewListener_tcp options)
  ∧ ((∀ n, n ∈ raw_socket :: http_family → casing_of p n ≠ true) →
     ∀ w, NewListener options w =
          (w, Err ("pkg/services/listeners.CreateListener(): unhandled server type "
                   +:+ fmt_d (servers_FromString p)))).
Proof.
  intros Hp. rewrite (NewListener_branch options p Hp). split_and!.
  - intros n Hn Hc. by rewrite (casing_selects_http p n Hn Hc).
  - intros Hc. by rewrite (casing_selects_tcp p Hc).
  - intros Hno w. by rewrite (no_casing_selects_default p Hno).
Qed.
End NewListener_properties.

Lemma NewListener_without_Protocol_witness :
  NewListener (E:=sample) {[ "Port" := "4444" ]} no_listeners =
    (no_listeners,
     Err ("pkg/services/listeners.CreateListener(): the options map did not contain the "
          +:+ dquote +:+ "Protocol" +:+ dquote +:+ " key")).
Proof. apply (NewListener_without_Protocol (E:=sample)). reflexivity. Defined.

Lemma NewListener_http_server_failure_witness :
  NewListener (E:=sample) https_example no_listeners =
    (no_listeners,
     Err "pkg/services/listeners.CreateListener(): the certificate could not be read").
Proof.
  apply (NewListener_http_server_failure (E:=sample) https_example "HTTPS" "https").
  - reflexivity.
  - apply (bool_decide_unpack _). vm_compute. exact I.
  - reflexivity.
  - reflexivity.
Defined.

Lemma NewListener_dispatch_witness :
  NewListener (E:=sample) {[ "Protocol" := "hTTp2" ]} =
    NewListener_http (E:=sample) {[ "Protocol" := "hTTp2" ]}
  ∧ NewListener (E:=sample) tcp_example = NewListener_tcp (E:=sample) tcp_example
  ∧ NewListener (E:=sample) {[ "Protocol" := "smb" ]} no_listeners =
      (no_listeners,
       Err "pkg/services/listeners.CreateListener(): unhandled server type 0").
Proof.
  split_and!.
  - destruct (NewListener_dispatch (E:=sample) {[ "Protocol" := "hTTp2" ]} "hTTp2")
      as (Hhttp & _ & _); [reflexivity|].
    apply (Hhttp "http2"); [|reflexivity].
    apply (bool_decide_unpack _). vm_compute. exact I.
  - destruct (NewListener_dispatch (E:=sample) tcp_example "TCP")
      as (_ & Htcp & _); [reflexivity|].
    apply Htcp. reflexivity.
  - destruct (NewListener_dispatch (E:=sample) {[ "Protocol" := "smb" ]} "smb")
      as (_ & _ & Hother); [reflexivity|].
    apply Hother. intros n Hn.
    apply (Forall_forall (λ n, casing_of "smb" n ≠ true) (raw_socket :: http_family));
      [|exact Hn].
    repeat constructor; discriminate.
Defined.

(** ** Repositories *)

Section Repository_properties.
Context {T : Type} (key : T → UUID) (name : T → string) (errs : RepoErrors).
Implicit Types (r : gmap UUID T) (x : T) (id : UUID) (n : string).

Lemma elem_of_All r x : x ∈ Repository.All r ↔ ∃ id, r !! id = Some x.
Proof.
  unfold Repository.All. rewrite list_elem_of_fmap. split.
  - intros [[id y] [-> Hin]]. exists id. by apply elem_of_map_to_list.
  - intros [id Hid]. exists (id, x). split; [done|].
    by apply elem_of_map_to_list.
Qed.

Lemma Add_Ok x r r' :
  Repository.Add key errs x r = Ok r' ↔ r !! key x = None ∧ r' = <[key x := x]> r.
Proof.
  unfold Repository.Add. destruct (r !! key x) eqn:Hk; split.
  - done.
  - by intros [? _].
  - by intros [= <-].
  - by intros [_ ->].
Qed.

Lemma RemoveByID_Ok id r r' :
  Repository.RemoveByID errs id r = Ok r' ↔ is_Some (r !! id) ∧ r' = delete id r.
Proof.
  unfold Repository.RemoveByID. destruct (r !! id) eqn:Hid.
  - split; [intros [= <-]; eauto | by intros [_ ->]].
  - split; [done | by intros [[? ?] _]].
Qed.

Lemma ByID_Some id r x : r !! id = Some x → Repository.ByID errs id r = Ok x.
Proof. unfold Repository.ByID. by intros ->. Qed.

Lemma ByID_None id r :
  r !! id = None → Repository.ByID errs id r = Err (err_no_id errs id).
Proof. unfold Repository.ByID. by intros ->. Qed.

(** A lookup by name that succeeds returns a stored record of that name. *)
Lemma ByName_Ok n r x :
  Repository.ByName name errs n r = Ok x → ∃ id, r !! id = Some x ∧ name x = n.
Proof.
  unfold Repository.ByName.
  destruct (list_find _ _) as [[i y]|] eqn:Hfind; [|done].
  intros [= ->]. apply list_find_Some in Hfind as (Hi & Hn & Hfirst).
  apply list_elem_of_lookup_2, elem_of_All in Hi as [id Hid]. eauto.
Qed.

(** It succeeds exactly when the repository holds a record of that name. *)
Lemma ByName_holds n r :
  Repository.holds_name name n r → ∃ x, Repository.ByName name errs n r = Ok x.
Proof.
  intros (id & x & Hid & Hn). unfold Repository.ByName.
  destruct (list_find_elem_of (λ y, name y = n) (Repository.All r) x)
    as [[i y] ->]; [apply elem_of_All; eauto | done | eauto].
Qed.

Lemma ByName_not_held n r :
  ¬ Repository.holds_name name n r →
  Repository.ByName name errs n r = Err (err_no_name errs n).
Proof.
  intros Hno. destruct (Repository.ByName name errs n r) as [x|e|] eqn:Hby.
  - destruct Hno. apply ByName_Ok in Hby as (id & ? & ?). by exists id, x.
  - revert Hby. unfold Repository.ByName.
    by destruct (list_find _ _) as [[? ?]|]; intros [= <-].
  - revert Hby. unfold Repository.ByName.
    by destruct (list_find _ _) as [[? ?]|].
Qed.
End Repository_properties.

(** ** Lookups across the repositories *)

Section lookup_properties.
Context {E : Collaborators}.

Lemma Listener_http (id : UUID) (w : World) (h : http_Listener) :
  httpRepo (service w) !! id = Some h →
  Listener id w = (w, Ok (HTTPListener h)).
Proof. intros Hh. unfold Listener. by rewrite (ByID_Some _ _ _ _ Hh). Qed.

Lemma Listener_tcp (id : UUID) (w : World) (t : tcp_Listener) :
  httpRepo (service w) !! id = None →
  tcpRepo (service w) !! id = Some t →
  Listener id w = (w, Ok (TCPListener t)).
Proof.
  intros Hh Ht. unfold Listener.
  by rewrite (ByID_None _ _ _ Hh), (ByID_Some _ _ _ _ Ht).
Qed.

Lemma Listener_none (id : UUID) (w : World) :
  httpRepo (service w) !! id = None →
  tcpRepo (service w) !! id = None →
  Listener id w =
    (w, Err ("pkg/services/listeners.GetListenerByID(): could not find listener "
             +:+ uuid_String id)).
Proof.
  intros Hh Ht. unfold Listener.
  by rewrite (ByID_None _ _ _ Hh), (ByID_None _ _ _ Ht).
Qed.

Lemma update_Ok {R} (get : World → R) (set : R → World → World)
    (f : R → result R) (w w' : World) :
  update get set f w = (w', Ok tt) ↔ ∃ r, f (get w) = Ok r ∧ w' = set r w.
Proof.
  unfold update. destruct (f (get w)) as [r|e|].
  - split; [intros [= <-]; eauto | by intros (? & [= <-] & ->)].
  - split; [done | by intros (? & ? & ?)].
  - split; [done | by intros (? & ? & ?)].
Qed.

(** C7.  ListenerByName probes the HTTP-family repository before the
    raw-socket one.  If the HTTP-family repository holds a listener of the
    name, one of its listeners of that name is returned without error,
    whatever the raw-socket repository holds; if only the raw-socket
    repository holds one, that one is returned; if neither does, the
    not-found error of the raw-socket repository is returned under the
    prefix of the operation.  The world is never changed. *)
Theorem ListenerByName_precedence (name : string) (w : World) :
  (Repository.holds_name http_name name (httpRepo (service w)) →
     ∃ h id, ListenerByName name w = (w, Ok (HTTPListener h))
             ∧ httpRepo (service w) !! id = Some h ∧ http_name h = name)
  ∧ (¬ Repository.holds_name http_name name (httpRepo (service w)) →
     Repository.holds_name tcp_name name (tcpRepo (service w)) →
     ∃ t id, ListenerByName name w = (w, Ok (TCPListener t))
             ∧ tcpRepo (service w) !! id = Some t ∧ tcp_name t = name)
  ∧ (¬ Repository.holds_name http_name name (httpRepo (service w)) →
     ¬ Repository.holds_name tcp_name name (tcpRepo (service w)) →
     ListenerByName name w =
       (w, Err ("pkg/services/listeners.GetListenerByName(): "
                +:+ err_no_name tcpRepo_errors name))).
Proof.
  unfold ListenerByName. split_and!.
  - intros Hh. destruct (ByName_holds http_name httpRepo_errors _ _ Hh) as [h Hby].
    destruct (ByName_Ok _ _ _ _ _ Hby) as (id & Hid & Hn).
    exists h, id. by rewrite Hby.
  - intros Hh Ht. rewrite (ByName_not_held _ httpRepo_errors _ _ Hh).
    destruct (ByName_holds tcp_name tcpRepo_errors _ _ Ht) as [t Hby].
    destruct (ByName_Ok _ _ _ _ _ Hby) as (id & Hid & Hn).
    exists t, id. by rewrite Hby.
  - intros Hh Ht. by rewrite (ByName_not_held _ httpRepo_errors _ _ Hh),
      (ByName_not_held _ tcpRepo_errors _ _ Ht).
Qed.

(** C8, as the code has it.  After an HTTP-family listener has been added
    to the HTTP-family repository, Listener returns it for its id.  After
    a raw-socket listener has been added to the raw-socket repository,
    Listener returns it for its id provided the HTTP-family repository,
    which is probed first, holds no listener of that id.  After a removal
    by id from one repository, Listener fails for that id with the
    not-found error provided the other repository holds no listener of
    that id.  And Listener fails with the not-found error exactly when the
    id is absent from both repositories; it never changes the world. *)
Theorem Listener_after_Add_and_RemoveByID (w w' : World) :
  (∀ h, httpRepo_Add h w = (w', Ok tt) →
        Listener (http_id h) w' = (w', Ok (HTTPListener h)))
  ∧ (∀ t, tcpRepo_Add t w = (w', Ok tt) →
          httpRepo (service w) !! tcp_id t = None →
          Listener (tcp_id t) w' = (w', Ok (TCPListener t)))
  ∧ (∀ id, httpRepo_RemoveByID id w = (w', Ok tt) →
           tcpRepo (service w) !! id = None →
           Listener id w' =
             (w', Err ("pkg/services/listeners.GetListenerByID(): could not find listener "
                       +:+ uuid_String id)))
  ∧ (∀ id, tcpRepo_RemoveByID id w = (w', Ok tt) →
           httpRepo (service w) !! id = None →
           Listener id w' =
             (w', Err ("pkg/services/listeners.GetListenerByID(): could not find listener "
                       +:+ uuid_String id)))
  ∧ (∀ id, fst (Listener id w) = w
           ∧ (snd (Listener id w) =
                Err ("pkg/services/listeners.GetListenerByID(): could not find listener "
                     +:+ uuid_String id)
              ↔ httpRepo (service w) !! id = None ∧ tcpRepo (service w) !! id = None)).
Proof.
  split_and!.
  - intros h (r & (_ & ->)%Add_Ok & ->)%update_Ok.
    apply Listener_http. cbn. apply lookup_insert_eq.
  - intros t (r & (_ & ->)%Add_Ok & ->)%update_Ok Hh.
    apply Listener_tcp; cbn; [done | apply lookup_insert_eq].
  - intros id (r & (Hid & ->)%RemoveByID_Ok & ->)%update_Ok Ht.
    apply Listener_none; cbn; [apply lookup_delete_eq | done].
  - intros id (r & (Hid & ->)%RemoveByID_Ok & ->)%update_Ok Hh.
    apply Listener_none; cbn; [done | apply lookup_delete_eq].
  - intros id.
    destruct (httpRepo (service w) !! id) as [h|] eqn:Hh.
    { rewrite (Listener_http id w h Hh). simpl.
      split; [done|]. split; [done | by intros [? ?]]. }
    destruct (tcpRepo (service w) !! id) as [t|] eqn:Ht.
    { rewrite (Listener_tcp id w t Hh Ht). simpl.
      split; [done|]. split; [done | by intros [? ?]]. }
    rewrite (Listener_none id w Hh Ht). simpl. by split.
Qed.
End lookup_properties.

Lemma ListenerByName_precedence_witness :
  ∃ h id, ListenerByName (E:=sample) "edge" both_named_edge =
            (both_named_edge, Ok (HTTPListener h))
          ∧ httpRepo (service both_named_edge) !! id = Some h
          ∧ http_name h = "edge".
Proof.
  apply (proj1 (ListenerByName_precedence (E:=sample) "edge" both_named_edge)).
  exists 17%N, web. split; reflexivity.
Defined.

Lemma Listener_after_Add_and_RemoveByID_witness :
  Listener (E:=sample) 18 raw_only = (raw_only, Ok (TCPListener raw)).
Proof.
  destruct (Listener_after_Add_and_RemoveByID (E:=sample) no_listeners raw_only)
    as (_ & Htcp & _).
  apply (Htcp raw); reflexivity.
Defined.

(** C8 as stated fails on colliding ids: the raw-socket listener [raw] is
    added to its repository without error, yet Listener returns the
    HTTP-family listener that has the same id; and once [raw] is removed
    again, Listener still succeeds for that id. *)
Lemma Listener_after_Add_shadowed :
  tcpRepo_Add (E:=sample) raw http_holds_18 =
    (set_tcpRepo {[ 18%N := raw ]} http_holds_18, Ok tt)
  ∧ Listener (E:=sample) (tcp_id raw) (set_tcpRepo {[ 18%N := raw ]} http_holds_18) =
      (set_tcpRepo {[ 18%N := raw ]} http_holds_18, Ok (HTTPListener web18))
  ∧ HTTPListener web18 ≠ TCPListener raw
  ∧ tcpRepo_RemoveByID (E:=sample) 18 (set_tcpRepo {[ 18%N := raw ]} http_holds_18) =
      (http_holds_18, Ok tt)
  ∧ Listener (E:=sample) 18 http_holds_18 = (http_holds_18, Ok (HTTPListener web18)).
Proof. split_and!; try reflexivity. discriminate. Qed.

(** ** Start, Stop, Restart *)

Section lifecycle_properties.
Context {E : Collaborators}.

Lemma TCP_not_HTTP : listeners_TCP ≠ listeners_HTTP.
Proof.
  pose proof listeners_tags_distinct as Hd.
  apply NoDup_cons in Hd as [_ Hd]. apply NoDup_cons in Hd as [Hd _].
  intros Heq. apply Hd. rewrite Heq. apply list_elem_of_here.
Qed.

(** Start on a raw-socket listener succeeds and changes nothing. *)
Lemma Start_raw_socket (id : UUID) (w : World) (t : tcp_Listener) :
  Listener id w = (w, Ok (TCPListener t)) → Start id w = (w, Ok tt).
Proof.
  intros Hl. unfold Start, mbind, M_bind, bind, wrap. rewrite Hl. cbn.
  rewrite (bool_decide_eq_false_2 _ TCP_not_HTTP).
  by rewrite bool_decide_eq_true_2.
Qed.

(** Stop dereferences the Server pointer of whatever listener it finds. *)
Lemma Stop_without_Server (id : UUID) (w : World) (l : listeners_Listener) :
  Listener id w = (w, Ok l) → Server_of l = None → Stop id w = (w, Fault).
Proof.
  intros Hl Hs. unfold Stop, mbind, M_bind, bind, wrap. rewrite Hl. cbn.
  by rewrite Hs.
Qed.

(** So does Restart. *)
Lemma Restart_without_Server (id : UUID) (w : World) (l : listeners_Listener) :
  Listener id w = (w, Ok l) → Server_of l = None → Restart id w = (w, Fault).
Proof.
  intros Hl Hs. unfold Restart, mbind, M_bind, bind, wrap. rewrite Hl. cbn.
  by rewrite Hs.
Qed.

(** C1, what the code does.  For a stored raw-socket listener (whose id no
    HTTP-family listener shares), Start returns success and changes
    nothing, but Stop and Restart panic on the nil Server pointer instead
    of returning success. *)
Theorem raw_socket_Start_Stop_Restart (id : UUID) (w : World) (t : tcp_Listener) :
  httpRepo (service w) !! id = None →
  tcpRepo (service w) !! id = Some t →
  Start id w = (w, Ok tt) ∧ Stop id w = (w, Fault) ∧ Restart id w = (w, Fault).
Proof.
  intros Hh Ht. pose proof (Listener_tcp id w t Hh Ht) as Hl. split_and!.
  - by apply (Start_raw_socket id w t).
  - by apply (Stop_without_Server id w (TCPListener t)).
  - by apply (Restart_without_Server id w (TCPListener t)).
Qed.

(** C6.  For a listener with a bound Server, Restart first calls Stop on
    the Server.  If that fails, Restart returns the failure (its text under
    the prefix of the operation) and the only call made is the Stop: Start
    is not launched.  If it succeeds, Start is launched after it and
    Restart returns success. *)
Theorem Restart_stops_first (id : UUID) (w : World) (l : listeners_Listener)
    (s : Server) :
  Listener id w = (w, Ok l) →
  Server_of l = Some s →
  (∀ e, server_Stop s (calls w) = Some e →
        Restart id w =
          (record_call (StopCalled s) w,
           Err ("pkg/services/listeners.Restart(): " +:+ e)))
  ∧ (server_Stop s (calls w) = None →
     Restart id w =
       (record_call (StartLaunched s) (record_call (StopCalled s) w), Ok tt)).
Proof.
  intros Hl Hs.
  unfold Restart, mbind, M_bind, bind, wrap, call_Stop, launch_Start.
  rewrite Hl. cbn. rewrite Hs. cbn. split.
  - by intros e ->.
  - by intros ->.
Qed.

(** C9, what the code does.  When no repository holds the id, Stop returns
    the not-found error of the lookup under the prefix of Restart, not
    of Stop. *)
Theorem Stop_not_found_is_labelled_Restart (id : UUID) (w : World) :
  httpRepo (service w) !! id = None →
  tcpRepo (service w) !! id = None →
  Stop id w =
    (w, Err ("pkg/services/listeners.Restart(): "
             +:+ "pkg/services/listeners.GetListenerByID(): could not find listener "
             +:+ uuid_String id)).
Proof.
  intros Hh Ht. unfold Stop, mbind, M_bind, bind, wrap.
  by rewrite (Listener_none id w Hh Ht).
Qed.

(** The sibling operations label the same failure with their own name. *)
Lemma Start_not_found (id : UUID) (w : World) :
  httpRepo (service w) !! id = None →
  tcpRepo (service w) !! id = None →
  Start id w =
    (w, Err ("pkg/services/listeners.Start(): "
             +:+ "pkg/services/listeners.GetListenerByID(): could not find listener "
             +:+ uuid_String id)).
Proof.
  intros Hh Ht. unfold Start, mbind, M_bind, bind, wrap.
  by rewrite (Listener_none id w Hh Ht).
Qed.

(** C10.  For a protocol value that is neither the HTTP tag nor the TCP
    tag, ListenersByType returns the empty list, whatever is stored; the
    function has no error to report and does not touch the
    repositories. *)
Theorem ListenersByType_other (protocol : Z) (ls : ListenerService) :
  protocol ≠ listeners_HTTP →
  protocol ≠ listeners_TCP →
  ListenersByType protocol ls = [].
Proof.
  intros Hh Ht. unfold ListenersByType.
  by rewrite (bool_decide_eq_false_2 _ Hh), (bool_decide_eq_false_2 _ Ht).
Qed.
End lifecycle_properties.

Lemma raw_socket_Start_Stop_Restart_witness :
  Start (E:=sample) 18 raw_only = (raw_only, Ok tt)
  ∧ Stop (E:=sample) 18 raw_only = (raw_only, Fault)
  ∧ Restart (E:=sample) 18 raw_only = (raw_only, Fault).
Proof.
  apply (raw_socket_Start_Stop_Restart (E:=sample) 18 raw_only raw); reflexivity.
Defined.

Lemma Restart_stops_first_witness :
  Restart (E:=sample) 17 both_named_edge =
    (record_call (StopCalled edge_server) both_named_edge,
     Err "pkg/services/listeners.Restart(): the server is not running").
Proof.
  destruct (Restart_stops_first (E:=sample) 17 both_named_edge
              (HTTPListener web) edge_server) as [Hfail _]; [reflexivity..|].
  apply Hfail. reflexivity.
Defined.

Lemma Stop_not_found_is_labelled_Restart_witness :
  Stop (E:=sample) 18 no_listeners =
    (no_listeners,
     Err "pkg/services/listeners.Restart(): pkg/services/listeners.GetListenerByID(): could not find listener 00000000-0000-0000-0000-000000000012").
Proof.
  apply (Stop_not_found_is_labelled_Restart (E:=sample) 18 no_listeners);
    reflexivity.
Defined.

Lemma ListenersByType_other_witness :
  ListenersByType (E:=sample) 7 (service both_named_edge) = [].
Proof.
  apply (ListenersByType_other (E:=sample) 7 (service both_named_edge));
    discriminate.
Defined.

(** ** DefaultOptions *)

Section order_of_strings.
Implicit Types a b : string.

Lemma ltb_of_le_ne a b : String.le a b → a ≠ b → String.ltb a b.
Proof.
  unfold String.le, String.leb, String.ltb. intros Hle Hne.
  destruct (String.compare a b) eqn:Hc; [|done..].
  by apply String.compare_eq_iff in Hc.
Qed.

Lemma ltb_asym a b : String.ltb a b → String.ltb b a → False.
Proof.
  unfold String.ltb. rewrite (String.compare_antisym a b).
  by destruct (String.compare b a).
Qed.

Lemma ltb_trichotomy a b : a ≠ b → String.ltb a b ∨ String.ltb b a.
Proof.
  intros Hne. unfold String.ltb. rewrite (String.compare_antisym a b).
  destruct (String.compare b a) eqn:Hc; simpl; auto.
  by apply String.compare_eq_iff in Hc.
Qed.

(** A list without duplicates that is sorted is strictly sorted. *)
Lemma Sorted_le_NoDup_lt (l : list string) :
  Sorted String.le l → NoDup l → Sorted (λ a b, String.ltb a b) l.
Proof.
  induction 1 as [|a l Hs IH Hhd]; intros Hnd; [constructor|].
  apply NoDup_cons in Hnd as [Ha Hnd]. constructor; [by apply IH|].
  destruct Hhd as [|b l Hab]; constructor.
  apply ltb_of_le_ne; [done|]. intros ->. apply Ha, list_elem_of_here.
Qed.
End order_of_strings.

Section DefaultOptions_properties.
Context {E : Collaborators}.
Implicit Types (m lo so : gmap string string) (k : string).

(** Adding the Server options gives the union, a Server entry winning
    over a listener entry of the same key. *)
Lemma add_server_options_union lo so : add_server_options lo so = so ∪ lo.
Proof.
  unfold add_server_options.
  apply (map_fold_weak_ind (λ r m, r = m ∪ lo)).
  - by rewrite (left_id_L ∅ (∪)).
  - intros k v m r _ ->. by rewrite insert_union_l.
Qed.

Lemma sorted_keys_elem_of lo k : k ∈ sorted_keys lo ↔ is_Some (lo !! k).
Proof.
  unfold sorted_keys, sort_Strings. rewrite merge_sort_Permutation.
  rewrite list_elem_of_fmap. split.
  - intros [[k' v] [-> Hin]]. apply elem_of_map_to_list in Hin. eauto.
  - intros [v Hv]. exists (k, v). split; [done|]. by apply elem_of_map_to_list.
Qed.

(** The keys the code collects are in strictly ascending order. *)
Lemma sorted_keys_ascending lo :
  Sorted (λ a b, String.ltb a b) (sorted_keys lo).
Proof.
  apply Sorted_le_NoDup_lt.
  - apply (Sorted_merge_sort String.le).
  - unfold sorted_keys, sort_Strings. rewrite merge_sort_Permutation.
    apply NoDup_fst_map_to_list.
Qed.

Lemma foldl_rebuild_lookup lo (keys : list string) (acc : gmap string string) k :
  foldl (λ options key, <[key := default EmptyString (lo !! key)]> options)
        acc keys !! k =
    if decide (k ∈ keys) then Some (default EmptyString (lo !! k)) else acc !! k.
Proof.
  revert acc. induction keys as [|a keys IH]; intros acc; cbn [foldl].
  - by rewrite decide_False by apply not_elem_of_nil.
  - rewrite IH. destruct (decide (k ∈ keys)) as [Hin|Hin].
    + by rewrite decide_True by (by apply list_elem_of_further).
    + destruct (decide (k = a)) as [->|Hne].
      * rewrite lookup_insert_eq.
        by rewrite decide_True by apply list_elem_of_here.
      * rewrite lookup_insert_ne by done.
        rewrite decide_False; [done|].
        rewrite elem_of_cons. by intros [?|?].
Qed.

(** Copying the entries key by key, whatever the order of the keys, gives
    the map back: the map that is returned does not remember the order in
    which it was filled. *)
Lemma rebuild_sorted_keys lo : rebuild lo (sorted_keys lo) = lo.
Proof.
  apply map_eq. intros k. unfold rebuild. rewrite foldl_rebuild_lookup.
  destruct (decide (k ∈ sorted_keys lo)) as [Hin|Hin].
  - apply sorted_keys_elem_of in Hin as [v Hv]. by rewrite Hv.
  - rewrite lookup_empty. symmetry. apply eq_None_not_Some.
    by rewrite <-sorted_keys_elem_of.
Qed.

Lemma DefaultOptions_HTTP (protocol : string) :
  listeners_FromString protocol = listeners_HTTP →
  DefaultOptions protocol =
    Ok (httpServer_GetDefaultOptions (servers_FromString protocol)
        ∪ http_DefaultOptions).
Proof.
  intros Hp. unfold DefaultOptions. rewrite Hp, bool_decide_eq_true_2 by done.
  by rewrite rebuild_sorted_keys, add_server_options_union.
Qed.

Lemma DefaultOptions_TCP (protocol : string) :
  listeners_FromString protocol = listeners_TCP →
  DefaultOptions protocol = Ok tcp_DefaultOptions.
Proof.
  intros Hp. unfold DefaultOptions. rewrite Hp.
  rewrite (bool_decide_eq_false_2 _ TCP_not_HTTP), bool_decide_eq_true_2 by done.
  rewrite rebuild_sorted_keys, add_server_options_union.
  by rewrite (left_id_L ∅ (∪)).
Qed.

(** A map with two keys can be traversed with the larger key first. *)
Lemma descending_traversal m (small big : string) :
  is_Some (m !! small) → is_Some (m !! big) → String.ltb small big →
  ∃ l, range_order m l ∧ ¬ keys_ascending l.
Proof.
  intros [vs Hs] [vb Hb] Hlt.
  assert (big ≠ small) as Hne by (intros ->; by apply (ltb_asym small small)).
  exists ((big, vb) :: (small, vs) :: map_to_list (delete small (delete big m))).
  split.
  - unfold range_order.
    rewrite <-(map_to_list_delete m big vb Hb).
    apply Permutation_skip.
    apply (map_to_list_delete (delete big m) small vs).
    by rewrite lookup_delete_ne.
  - unfold keys_ascending. simpl. intros Hsorted.
    apply Sorted_inv in Hsorted as [_ Hhd]. apply HdRel_inv in Hhd.
    by apply (ltb_asym small big).
Qed.

(** C3, what the code does.  The keys are sorted, but the result is a
    map, which has no order.  For an HTTP-family protocol the key set of
    the returned map is exactly the union of the listener-level and the
    server-level default keys; and as soon as the returned map has two
    different keys, it can be traversed in an order whose keys are not
    ascending. *)
Theorem DefaultOptions_keys_and_order (protocol : string) (m : gmap string string) :
  DefaultOptions protocol = Ok m →
  (listeners_FromString protocol = listeners_HTTP →
     dom m = dom http_DefaultOptions
             ∪ dom (httpServer_GetDefaultOptions (servers_FromString protocol)))
  ∧ (∀ k1 k2, k1 ∈ dom m → k2 ∈ dom m → k1 ≠ k2 →
       ∃ l, range_order m l ∧ ¬ keys_ascending l).
Proof.
  intros Hm. split.
  - intros Hp. rewrite (DefaultOptions_HTTP protocol Hp) in Hm.
    injection Hm as <-. rewrite dom_union_L. apply (comm_L (∪)).
  - intros k1 k2 H1%elem_of_dom H2%elem_of_dom Hne.
    destruct (ltb_trichotomy k1 k2 Hne).
    + by apply (descending_traversal m k1 k2).
    + by apply (descending_traversal m k2 k1).
Qed.
End DefaultOptions_properties.

Lemma DefaultOptions_keys_and_order_witness :
  ∃ m, DefaultOptions (E:=sample) "HTTPS" = Ok m
       ∧ dom m = {[ "Interface"; "Name"; "PSK"; "Port"; "Protocol" ]}
       ∧ ∃ l, range_order m l ∧ ¬ keys_ascending l.
Proof.
  exists (Sample.httpServer_GetDefaultOptions 2 ∪ Sample.http_DefaultOptions).
  assert (DefaultOptions (E:=sample) "HTTPS" =
            Ok (Sample.httpServer_GetDefaultOptions 2 ∪ Sample.http_DefaultOptions))
    as Hm by reflexivity.
  destruct (DefaultOptions_keys_and_order (E:=sample) "HTTPS" _ Hm) as [Hdom Hord].
  split_and!.
  - exact Hm.
  - rewrite Hdom by reflexivity. reflexivity.
  - apply (Hord "Port" "PSK").
    + apply elem_of_dom. eexists. reflexivity.
    + apply elem_of_dom. eexists. reflexivity.
    + discriminate.
Defined.

(** * Further properties of the service *)

(** Unfolds the sequencing of a method so that its calls can be run one
    after the other. *)
Ltac run_method :=
  unfold mbind, M_bind, bind, wrap, lift, mret, M_ret, ret, fail, deref,
    update, wrap_result; cbn.

(** ** Creation *)

Section creation_properties.
Context {E : Collaborators}.
Implicit Types (options : gmap string string) (w : World).

Lemma NewListener_tcp_Ok options w w' (l : listeners_Listener) :
  NewListener_tcp options w = (w', Ok l) →
  ∃ t, l = TCPListener t
       ∧ tcp_NewTCPListener options = Ok t
       ∧ tcpRepo (service w) !! tcp_id t = None
       ∧ w' = set_tcpRepo (<[tcp_id t := t]> (tcpRepo (service w))) w.
Proof.
  unfold NewListener_tcp, tcpRepo_Add, Repository.Add. run_method.
  destruct (tcp_NewTCPListener options) as [t|e|] eqn:Ht; cbn; try done.
  destruct (tcpRepo (service w) !! tcp_id t) eqn:Hfree; cbn; try done.
  intros [= <- <-]. by exists t.
Qed.

(** X1.  HTTP-family creation is not undone when it fails half-way: if the
    Server was built and stored and the construction of the Listener then
    fails, NewListener returns that failure and the Server stays in the
    Server repository, with no Listener referring to it. *)
Theorem NewListener_leaves_Server_behind options (p e : string) (s : Server) w :
  options !! "Protocol" = Some p →
  dispatch (ToLower p) = HTTPBranch →
  httpServer_New options = Ok s →
  httpServerRepo (service w) !! srv_id s = None →
  http_NewHTTPListener s options = Err e →
  NewListener options w =
    (set_httpServerRepo (<[srv_id s := s]> (httpServerRepo (service w))) w,
     Err ("pkg/services/listeners.CreateListener(): " +:+ e)).
Proof.
  intros Hp Hd Hs Hfree He. rewrite (NewListener_branch options p Hp), Hd.
  unfold NewListener_http, httpServerRepo_Add, Repository.Add. run_method.
  rewrite Hs. cbn. rewrite Hfree. cbn. by rewrite He.
Qed.

(** X2.  Identifier collisions during HTTP-family creation.  If the id of
    the new Server is already in the Server repository, NewListener fails
    with the duplicate error of that repository and nothing is stored.  If
    the Server is stored and the id of the new Listener is already in the
    HTTP-family repository, NewListener fails with the duplicate error of
    that repository and the new Server stays stored. *)
Theorem NewListener_http_duplicate_id options (p : string) (s : Server) w :
  options !! "Protocol" = Some p →
  dispatch (ToLower p) = HTTPBranch →
  httpServer_New options = Ok s →
  (is_Some (httpServerRepo (service w) !! srv_id s) →
     NewListener options w =
       (w, Err ("pkg/services/listeners.CreateListener(): "
                +:+ err_duplicate httpServerRepo_errors (srv_id s))))
  ∧ (∀ h, httpServerRepo (service w) !! srv_id s = None →
          http_NewHTTPListener s options = Ok h →
          is_Some (httpRepo (service w) !! http_id h) →
          NewListener options w =
            (set_httpServerRepo (<[srv_id s := s]> (httpServerRepo (service w))) w,
             Err ("pkg/services/listeners.CreateListener(): "
                  +:+ err_duplicate httpRepo_errors (http_id h)))).
Proof.
  intros Hp Hd Hs. rewrite (NewListener_branch options p Hp), Hd.
  unfold NewListener_http, httpServerRepo_Add, httpRepo_Add, Repository.Add.
  run_method. rewrite Hs. cbn. split.
  - intros [s' Hs']. by rewrite Hs'.
  - intros h Hfree Hh [h' Hh']. rewrite Hfree. cbn. rewrite Hh. cbn.
    by rewrite Hh'.
Qed.

(** X3.  A successful HTTP-family creation: when both factories succeed and
    both ids are free, NewListener stores the Server in the Server
    repository and the Listener in the HTTP-family repository, returns the
    Listener, and changes nothing else: the raw-socket repository and the
    calls made on Servers are as before, so the new Server has not been
    started. *)
Theorem NewListener_http_stores_both options (p : string) (s : Server)
    (h : http_Listener) w :
  options !! "Protocol" = Some p →
  dispatch (ToLower p) = HTTPBranch →
  httpServer_New options = Ok s →
  httpServerRepo (service w) !! srv_id s = None →
  http_NewHTTPListener s options = Ok h →
  httpRepo (service w) !! http_id h = None →
  NewListener options w =
    ({| service :=
          {| tcpRepo := tcpRepo (service w);
             httpRepo := <[http_id h := h]> (httpRepo (service w));
             httpServerRepo := <[srv_id s := s]> (httpServerRepo (service w)) |};
        calls := calls w |},
     Ok (HTTPListener h)).
Proof.
  intros Hp Hd Hs Hfree Hh Hfree'. rewrite (NewListener_branch options p Hp), Hd.
  unfold NewListener_http, httpServerRepo_Add, httpRepo_Add, Repository.Add.
  run_method. rewrite Hs. cbn. rewrite Hfree. cbn. rewrite Hh. cbn.
  by rewrite Hfree'.
Qed.

(** X4.  Raw-socket creation.  When the factory succeeds and the id is
    free, the Listener is stored in the raw-socket repository and returned,
    and nothing else changes; when the factory fails, or the id is taken,
    the failure is returned under the prefix of the operation and nothing
    changes at all.  No Server is involved in any case. *)
Theorem NewListener_tcp_outcomes options (p : string) w :
  options !! "Protocol" = Some p →
  dispatch (ToLower p) = TCPBranch →
  (∀ t, tcp_NewTCPListener options = Ok t →
        tcpRepo (service w) !! tcp_id t = None →
        NewListener options w =
          (set_tcpRepo (<[tcp_id t := t]> (tcpRepo (service w))) w,
           Ok (TCPListener t)))
  ∧ (∀ t, tcp_NewTCPListener options = Ok t →
          is_Some (tcpRepo (service w) !! tcp_id t) →
          NewListener options w =
            (w, Err ("pkg/services/listeners.CreateListener(): "
                     +:+ err_duplicate tcpRepo_errors (tcp_id t))))
  ∧ (∀ e, tcp_NewTCPListener options = Err e →
          NewListener options w =
            (w, Err ("pkg/services/listeners.CreateListener(): " +:+ e))).
Proof.
  intros Hp Hd. rewrite (NewListener_branch options p Hp), Hd.
  unfold NewListener_tcp, tcpRepo_Add, Repository.Add. run_method.
  split_and!.
  - intros t Ht Hfree. rewrite Ht. cbn. by rewrite Hfree.
  - intros t Ht [t' Ht']. rewrite Ht. cbn. by rewrite Ht'.
  - intros e He. by rewrite He.
Qed.

(** X5.  Whatever the option map and whatever the outcome, NewListener only
    adds: every record stored before the call is stored unchanged after it,
    in each of the three repositories, and no call is made on any Server. *)
Theorem NewListener_only_adds options w :
  tcpRepo (service w) ⊆ tcpRepo (service (fst (NewListener options w)))
  ∧ httpRepo (service w) ⊆ httpRepo (service (fst (NewListener options w)))
  ∧ httpServerRepo (service w)
      ⊆ httpServerRepo (service (fst (NewListener options w)))
  ∧ calls (fst (NewListener options w)) = calls w.
Proof.
  unfold NewListener. destruct (options !! "Protocol") as [p|]; [|done].
  destruct (dispatch (ToLower p)); [| |done].
  - unfold NewListener_http, httpServerRepo_Add, httpRepo_Add, Repository.Add.
    run_method.
    destruct (httpServer_New options) as [s|e|]; cbn; try done.
    destruct (httpServerRepo (service w) !! srv_id s) eqn:Hfree; cbn; try done.
    destruct (http_NewHTTPListener s options) as [h|e|]; cbn;
      try (split_and!; try done; by apply insert_subseteq).
    destruct (httpRepo (service w) !! http_id h) eqn:Hfree'; cbn;
      split_and!; try done; by apply insert_subseteq.
  - unfold NewListener_tcp, tcpRepo_Add, Repository.Add. run_method.
    destruct (tcp_NewTCPListener options) as [t|e|]; cbn; try done.
    destruct (tcpRepo (service w) !! tcp_id t) eqn:Hfree; cbn; try done.
    split_and!; try done. by apply insert_subseteq.
Qed.

(** X6.  Creation followed by lookup.  The listener NewListener returns is
    the one Listener finds under its id right afterwards: always for an
    HTTP-family listener, and for a raw-socket listener when no HTTP-family
    listener has the same id. *)
Theorem NewListener_then_Listener options w w' (l : listeners_Listener) :
  NewListener options w = (w', Ok l) →
  httpRepo (service w) !! ID l = None ∨ (∃ h, l = HTTPListener h) →
  Listener (ID l) w' = (w', Ok l).
Proof.
  unfold NewListener. destruct (options !! "Protocol") as [p|]; [|done].
  destruct (dispatch (ToLower p)); [| |done].
  - intros (s & h & -> & _ & _ & _ & _ & Hrepo & _)%NewListener_http_Ok _.
    apply Listener_http. rewrite Hrepo. apply lookup_insert_eq.
  - intros (t & -> & _ & _ & ->)%NewListener_tcp_Ok [Hh | [h [=]]].
    apply Listener_tcp; cbn; [done | apply lookup_insert_eq].
Qed.
End creation_properties.

Lemma NewListener_leaves_Server_behind_witness :
  NewListener (E:=sample) http_unnamed no_listeners =
    (set_httpServerRepo {[ 4096%N := sample_server http_unnamed ]} no_listeners,
     Err "pkg/services/listeners.CreateListener(): a listener needs a name").
Proof.
  apply (NewListener_leaves_Server_behind (E:=sample) http_unnamed "HTTP"
           "a listener needs a name" (sample_server http_unnamed) no_listeners);
    reflexivity.
Defined.

Lemma NewListener_http_duplicate_id_witness :
  NewListener (E:=sample) http_named both_named_edge =
    (both_named_edge,
     Err "pkg/services/listeners.CreateListener(): the id is already in use: 00000000-0000-0000-0000-000000001000").
Proof.
  destruct (NewListener_http_duplicate_id (E:=sample) http_named "HTTP"
              (sample_server http_named) both_named_edge) as [Hdup _];
    [reflexivity..|].
  apply Hdup. exists edge_server. reflexivity.
Defined.

Lemma NewListener_http_stores_both_witness :
  NewListener (E:=sample) http_named no_listeners =
    ({| service :=
          {| tcpRepo := ∅;
             httpRepo :=
               {[ 17%N := {| http_id := 17; http_name := "front";
                             http_options := http_named;
                             http_server := sample_server http_named |} ]};
             httpServerRepo := {[ 4096%N := sample_server http_named ]} |};
        calls := [] |},
     Ok (HTTPListener {| http_id := 17; http_name := "front";
                         http_options := http_named;
                         http_server := sample_server http_named |})).
Proof.
  apply (NewListener_http_stores_both (E:=sample) http_named "HTTP"
           (sample_server http_named)
           {| http_id := 17; http_name := "front"; http_options := http_named;
              http_server := sample_server http_named |} no_listeners);
    reflexivity.
Defined.

Lemma NewListener_tcp_outcomes_witness :
  NewListener (E:=sample) tcp_example no_listeners =
    (set_tcpRepo {[ 18%N := {| tcp_id := 18; tcp_name := "raw";
                               tcp_options := tcp_example |} ]} no_listeners,
     Ok (TCPListener {| tcp_id := 18; tcp_name := "raw";
                        tcp_options := tcp_example |})).
Proof.
  destruct (NewListener_tcp_outcomes (E:=sample) tcp_example "TCP" no_listeners)
    as [Hok _]; [reflexivity..|].
  apply (Hok {| tcp_id := 18; tcp_name := "raw"; tcp_options := tcp_example |});
    reflexivity.
Defined.

Lemma NewListener_then_Listener_witness :
  Listener (E:=sample) 18
    (set_tcpRepo {[ 18%N := {| tcp_id := 18; tcp_name := "raw";
                               tcp_options := tcp_example |} ]} no_listeners) =
    (set_tcpRepo {[ 18%N := {| tcp_id := 18; tcp_name := "raw";
                               tcp_options := tcp_example |} ]} no_listeners,
     Ok (TCPListener {| tcp_id := 18; tcp_name := "raw";
                        tcp_options := tcp_example |})).
Proof.
  apply (NewListener_then_Listener (E:=sample) tcp_example no_listeners _
           (TCPListener {| tcp_id := 18; tcp_name := "raw";
                           tcp_options := tcp_example |})).
  - reflexivity.
  - left. reflexivity.
Defined.

(** ** Life cycle *)

Section more_lifecycle_properties.
Context {E : Collaborators}.
Implicit Types (id : UUID) (w : World).

(** The three outcomes of the lookup by id. *)
Lemma Listener_cases id w :
  (∃ h, httpRepo (service w) !! id = Some h
        ∧ Listener id w = (w, Ok (HTTPListener h)))
  ∨ (∃ t, httpRepo (service w) !! id = None ∧ tcpRepo (service w) !! id = Some t
          ∧ Listener id w = (w, Ok (TCPListener t)))
  ∨ (httpRepo (service w) !! id = None ∧ tcpRepo (service w) !! id = None
     ∧ Listener id w =
         (w, Err ("pkg/services/listeners.GetListenerByID(): could not find listener "
                  +:+ uuid_String id))).
Proof.
  destruct (httpRepo (service w) !! id) as [h|] eqn:Hh.
  { left. exists h. split; [done|]. by apply Listener_http. }
  destruct (tcpRepo (service w) !! id) as [t|] eqn:Ht.
  { right; left. exists t. split_and!; [done..|]. by apply Listener_tcp. }
  right; right. split_and!; [done..|]. by apply Listener_none.
Qed.

Lemma Start_http id w (h : http_Listener) :
  httpRepo (service w) !! id = Some h →
  Start id w = (record_call (StartLaunched (http_server h)) w, Ok tt).
Proof.
  intros Hh. unfold Start. run_method. rewrite (Listener_http id w h Hh). cbn.
  by rewrite bool_decide_eq_true_2.
Qed.

Lemma Stop_http id w (h : http_Listener) :
  httpRepo (service w) !! id = Some h →
  Stop id w =
    (record_call (StopCalled (http_server h)) w,
     match server_Stop (http_server h) (calls w) with
     | None => Ok tt
     | Some e => Err e
     end).
Proof.
  intros Hh. unfold Stop, call_Stop. run_method.
  by rewrite (Listener_http id w h Hh).
Qed.

Lemma Restart_http id w (h : http_Listener) :
  httpRepo (service w) !! id = Some h →
  Restart id w =
    match server_Stop (http_server h) (calls w) with
    | None =>
        (record_call (StartLaunched (http_server h))
           (record_call (StopCalled (http_server h)) w), Ok tt)
    | Some e =>
        (record_call (StopCalled (http_server h)) w,
         Err ("pkg/services/listeners.Restart(): " +:+ e))
    end.
Proof.
  intros Hh. unfold Restart, call_Stop, launch_Start. run_method.
  rewrite (Listener_http id w h Hh). cbn.
  by destruct (server_Stop (http_server h) (calls w)).
Qed.

(** X7.  Start on an HTTP-family listener always returns success and
    launches the start routine of its Server, whatever was launched before:
    it does not look at the calls already made, so a second Start launches
    the routine a second time. *)
Theorem Start_launches_every_time id w (h : http_Listener) :
  httpRepo (service w) !! id = Some h →
  Start id w = (record_call (StartLaunched (http_server h)) w, Ok tt)
  ∧ Start id (fst (Start id w)) =
      (record_call (StartLaunched (http_server h))
         (record_call (StartLaunched (http_server h)) w), Ok tt).
Proof.
  intros Hh. rewrite (Start_http id w h Hh). split; [done|].
  cbn. by apply Start_http.
Qed.

(** X8.  Stop on an HTTP-family listener calls Stop on its Server once and
    returns what the Server returns: success, or the Server's error with its
    text unchanged, without the prefix that Restart puts before the same
    error. *)
Theorem Stop_returns_Server_result id w (h : http_Listener) :
  httpRepo (service w) !! id = Some h →
  (server_Stop (http_server h) (calls w) = None →
     Stop id w = (record_call (StopCalled (http_server h)) w, Ok tt))
  ∧ (∀ e, server_Stop (http_server h) (calls w) = Some e →
          Stop id w = (record_call (StopCalled (http_server h)) w, Err e)
          ∧ Restart id w =
              (record_call (StopCalled (http_server h)) w,
               Err ("pkg/services/listeners.Restart(): " +:+ e))).
Proof.
  intros Hh. rewrite (Stop_http id w h Hh), (Restart_http id w h Hh). split.
  - by intros ->.
  - by intros e ->.
Qed.

(** X9.  Start, Stop and Restart never change a repository: whatever the
    id and whatever the outcome, the service holds the same records
    afterwards. *)
Theorem lifecycle_keeps_records id w :
  service (fst (Start id w)) = service w
  ∧ service (fst (Stop id w)) = service w
  ∧ service (fst (Restart id w)) = service w.
Proof.
  destruct (Listener_cases id w)
    as [(h & Hh & Hl) | [(t & Hh & Ht & Hl) | (Hh & Ht & Hl)]].
  - rewrite (Start_http id w h Hh), (Stop_http id w h Hh), (Restart_http id w h Hh).
    by destruct (server_Stop (http_server h) (calls w)).
  - rewrite (Start_raw_socket id w t Hl),
      (Stop_without_Server id w (TCPListener t) Hl eq_refl),
      (Restart_without_Server id w (TCPListener t) Hl eq_refl).
    done.
  - unfold Start, Stop, Restart. run_method. by rewrite Hl.
Qed.

(** X10.  When Stop succeeds, Restart does what Stop followed by Start
    does: it ends in the same world with the same result. *)
Theorem Restart_is_Stop_then_Start id w w1 :
  Stop id w = (w1, Ok tt) → Restart id w = Start id w1.
Proof.
  destruct (Listener_cases id w)
    as [(h & Hh & Hl) | [(t & Hh & Ht & Hl) | (Hh & Ht & Hl)]].
  - rewrite (Stop_http id w h Hh), (Restart_http id w h Hh).
    destruct (server_Stop (http_server h) (calls w)); [done|].
    intros [= <-]. symmetry. by apply Start_http.
  - by rewrite (Stop_without_Server id w (TCPListener t) Hl eq_refl).
  - unfold Stop. run_method. by rewrite Hl.
Qed.

(** X11.  For an id that no repository holds, Start and Restart fail with
    the not-found error of the lookup under their own name, and make no call
    on any Server. *)
Theorem Start_Restart_not_found id w :
  httpRepo (service w) !! id = None →
  tcpRepo (service w) !! id = None →
  Start id w =
    (w, Err ("pkg/services/listeners.Start(): "
             +:+ "pkg/services/listeners.GetListenerByID(): could not find listener "
             +:+ uuid_String id))
  ∧ Restart id w =
      (w, Err ("pkg/services/listeners.Restart(): "
               +:+ "pkg/services/listeners.GetListenerByID(): could not find listener "
               +:+ uuid_String id)).
Proof.
  intros Hh Ht. unfold Start, Restart. run_method.
  by rewrite (Listener_none id w Hh Ht).
Qed.
End more_lifecycle_properties.

Lemma Start_launches_every_time_witness :
  Start (E:=sample) 21 three_listeners =
    (record_call (StartLaunched front_server) three_listeners, Ok tt)
  ∧ Start (E:=sample) 21 (fst (Start (E:=sample) 21 three_listeners)) =
      (record_call (StartLaunched front_server)
         (record_call (StartLaunched front_server) three_listeners), Ok tt).
Proof.
  apply (Start_launches_every_time (E:=sample) 21 three_listeners front).
  reflexivity.
Defined.

Lemma Stop_returns_Server_result_witness :
  Stop (E:=sample) 17 both_named_edge =
    (record_call (StopCalled edge_server) both_named_edge,
     Err "the server is not running")
  ∧ Restart (E:=sample) 17 both_named_edge =
      (record_call (StopCalled edge_server) both_named_edge,
       Err "pkg/services/listeners.Restart(): the server is not running").
Proof.
  destruct (Stop_returns_Server_result (E:=sample) 17 both_named_edge web)
    as [_ Hfail]; [reflexivity|].
  apply Hfail. reflexivity.
Defined.

Lemma Restart_is_Stop_then_Start_witness :
  Restart (E:=sample) 21 three_listeners =
    Start (E:=sample) 21 (record_call (StopCalled front_server) three_listeners).
Proof.
  apply (Restart_is_Stop_then_Start (E:=sample) 21 three_listeners).
  reflexivity.
Defined.

Lemma Start_Restart_not_found_witness :
  Start (E:=sample) 18 no_listeners =
    (no_listeners,
     Err "pkg/services/listeners.Start(): pkg/services/listeners.GetListenerByID(): could not find listener 00000000-0000-0000-0000-000000000012")
  ∧ Restart (E:=sample) 18 no_listeners =
      (no_listeners,
       Err "pkg/services/listeners.Restart(): pkg/services/listeners.GetListenerByID(): could not find listener 00000000-0000-0000-0000-000000000012").
Proof.
  apply (Start_Restart_not_found (E:=sample) 18 no_listeners); reflexivity.
Defined.

(** ** Remove and SetOptions *)

Section Remove_SetOptions_properties.
Context {E : Collaborators}.
Implicit Types (id : UUID) (w : World) (o : gmap string string).

Lemma Remove_http id w (h : http_Listener) :
  httpRepo (service w) !! id = Some h →
  Remove id w = (set_httpRepo (delete id (httpRepo (service w))) w, Ok tt).
Proof.
  intros Hh. unfold Remove, httpRepo_RemoveByID, Repository.RemoveByID.
  run_method. rewrite (Listener_http id w h Hh). cbn.
  rewrite bool_decide_eq_true_2 by done. by rewrite Hh.
Qed.

Lemma Remove_tcp id w (t : tcp_Listener) :
  httpRepo (service w) !! id = None →
  tcpRepo (service w) !! id = Some t →
  Remove id w = (set_tcpRepo (delete id (tcpRepo (service w))) w, Ok tt).
Proof.
  intros Hh Ht. unfold Remove, tcpRepo_RemoveByID, Repository.RemoveByID.
  run_method. rewrite (Listener_tcp id w t Hh Ht). cbn.
  rewrite (bool_decide_eq_false_2 _ TCP_not_HTTP).
  rewrite bool_decide_eq_true_2 by done. by rewrite Ht.
Qed.

Lemma Remove_none id w :
  httpRepo (service w) !! id = None →
  tcpRepo (service w) !! id = None →
  Remove id w =
    (w, Err ("pkg/services/listeners.GetListenerByID(): could not find listener "
             +:+ uuid_String id)).
Proof.
  intros Hh Ht. unfold Remove. run_method. by rewrite (Listener_none id w Hh Ht).
Qed.

(** X12.  Remove deletes the listener from the repository in which the
    lookup found it, the HTTP-family repository first, and from that one
    only.  It never touches the Server repository, so the Server of a
    removed HTTP-family listener stays stored, and it makes no call on a
    Server, so a running Server is not stopped. *)
Theorem Remove_deletes_the_listener_only id w :
  (∀ h, httpRepo (service w) !! id = Some h →
        Remove id w = (set_httpRepo (delete id (httpRepo (service w))) w, Ok tt))
  ∧ (∀ t, httpRepo (service w) !! id = None →
          tcpRepo (service w) !! id = Some t →
          Remove id w = (set_tcpRepo (delete id (tcpRepo (service w))) w, Ok tt))
  ∧ httpServerRepo (service (fst (Remove id w))) = httpServerRepo (service w)
  ∧ calls (fst (Remove id w)) = calls w.
Proof.
  split_and!.
  - apply Remove_http.
  - apply Remove_tcp.
  - destruct (Listener_cases id w)
      as [(h & Hh & _) | [(t & Hh & Ht & _) | (Hh & Ht & _)]].
    + by rewrite (Remove_http id w h Hh).
    + by rewrite (Remove_tcp id w t Hh Ht).
    + by rewrite (Remove_none id w Hh Ht).
  - destruct (Listener_cases id w)
      as [(h & Hh & _) | [(t & Hh & Ht & _) | (Hh & Ht & _)]].
    + by rewrite (Remove_http id w h Hh).
    + by rewrite (Remove_tcp id w t Hh Ht).
    + by rewrite (Remove_none id w Hh Ht).
Qed.

(** X13.  For an id that no repository holds, Remove and SetOptions return
    the error of the lookup as it is, without a prefix of their own, and
    change nothing. *)
Theorem Remove_SetOptions_not_found id o w :
  httpRepo (service w) !! id = None →
  tcpRepo (service w) !! id = None →
  Remove id w =
    (w, Err ("pkg/services/listeners.GetListenerByID(): could not find listener "
             +:+ uuid_String id))
  ∧ SetOptions id o w =
      (w, Err ("pkg/services/listeners.GetListenerByID(): could not find listener "
               +:+ uuid_String id)).
Proof.
  intros Hh Ht. split; [by apply Remove_none|].
  unfold SetOptions. run_method. by rewrite (Listener_none id w Hh Ht).
Qed.

(** X14.  Lookup after a successful Remove.  If both repositories held the
    id, the HTTP-family listener has been removed and Listener now returns
    the raw-socket listener of that id; otherwise Listener fails with the
    not-found error. *)
Theorem Remove_then_Listener id w w' :
  Remove id w = (w', Ok tt) →
  (∀ t, is_Some (httpRepo (service w) !! id) →
        tcpRepo (service w) !! id = Some t →
        Listener id w' = (w', Ok (TCPListener t)))
  ∧ (httpRepo (service w) !! id = None ∨ tcpRepo (service w) !! id = None →
     Listener id w' =
       (w', Err ("pkg/services/listeners.GetListenerByID(): could not find listener "
                 +:+ uuid_String id))).
Proof.
  destruct (Listener_cases id w)
    as [(h & Hh & _) | [(t & Hh & Ht & _) | (Hh & Ht & _)]].
  - rewrite (Remove_http id w h Hh). intros [= <-]. split.
    + intros t _ Ht. apply Listener_tcp; cbn; [apply lookup_delete_eq | done].
    + intros [Hh' | Ht]; [congruence|].
      apply Listener_none; cbn; [apply lookup_delete_eq | done].
  - rewrite (Remove_tcp id w t Hh Ht). intros [= <-]. split.
    + intros t' [h Hh'] _. congruence.
    + intros _. apply Listener_none; cbn; [done | apply lookup_delete_eq].
  - by rewrite (Remove_none id w Hh Ht).
Qed.

(** X15.  SetOptions replaces the option map of the record the lookup
    found, the HTTP-family one first, and Listener then returns that record
    with the new options and the same id, name and Server.  The Server
    repository and the other listener repository are not touched: the
    Server of an HTTP-family listener keeps the options it was built from. *)
Theorem SetOptions_then_Listener id o w :
  (∀ h, httpRepo (service w) !! id = Some h →
        let h' := {| http_id := http_id h; http_name := http_name h;
                     http_options := o; http_server := http_server h |} in
        let w' := set_httpRepo (<[id := h']> (httpRepo (service w))) w in
        SetOptions id o w = (w', Ok tt)
        ∧ Listener id w' = (w', Ok (HTTPListener h')))
  ∧ (∀ t, httpRepo (service w) !! id = None →
          tcpRepo (service w) !! id = Some t →
          let t' := {| tcp_id := tcp_id t; tcp_name := tcp_name t;
                       tcp_options := o |} in
          let w' := set_tcpRepo (<[id := t']> (tcpRepo (service w))) w in
          SetOptions id o w = (w', Ok tt)
          ∧ Listener id w' = (w', Ok (TCPListener t'))).
Proof.
  split.
  - intros h Hh h' w'. split.
    + unfold SetOptions, httpRepo_UpdateOptions, Repository.UpdateOptions.
      run_method. rewrite (Listener_http id w h Hh). cbn.
      rewrite bool_decide_eq_true_2 by done. by rewrite Hh.
    + apply Listener_http. cbn. apply lookup_insert_eq.
  - intros t Hh Ht t' w'. split.
    + unfold SetOptions, tcpRepo_UpdateOptions, Repository.UpdateOptions.
      run_method. rewrite (Listener_tcp id w t Hh Ht). cbn.
      rewrite (bool_decide_eq_false_2 _ TCP_not_HTTP).
      rewrite bool_decide_eq_true_2 by done. by rewrite Ht.
    + apply Listener_tcp; cbn; [done | apply lookup_insert_eq].
Qed.
End Remove_SetOptions_properties.

Lemma Remove_deletes_the_listener_only_witness :
  Remove (E:=sample) 18 both_hold_18 = (set_httpRepo ∅ both_hold_18, Ok tt).
Proof.
  destruct (Remove_deletes_the_listener_only (E:=sample) 18 both_hold_18)
    as [Hhttp _].
  apply (Hhttp web18). reflexivity.
Defined.

Lemma Remove_SetOptions_not_found_witness :
  Remove (E:=sample) 18 no_listeners =
    (no_listeners,
     Err "pkg/services/listeners.GetListenerByID(): could not find listener 00000000-0000-0000-0000-000000000012")
  ∧ SetOptions (E:=sample) 18 {[ "Port" := "8443" ]} no_listeners =
      (no_listeners,
       Err "pkg/services/listeners.GetListenerByID(): could not find listener 00000000-0000-0000-0000-000000000012").
Proof.
  apply (Remove_SetOptions_not_found (E:=sample) 18 {[ "Port" := "8443" ]}
           no_listeners); reflexivity.
Defined.

Lemma Remove_then_Listener_witness :
  Listener (E:=sample) 18 (set_httpRepo ∅ both_hold_18) =
    (set_httpRepo ∅ both_hold_18, Ok (TCPListener raw)).
Proof.
  destruct (Remove_then_Listener (E:=sample) 18 both_hold_18
              (set_httpRepo ∅ both_hold_18)) as [Hboth _]; [reflexivity|].
  apply Hboth; [exists web18|]; reflexivity.
Defined.

Lemma SetOptions_then_Listener_witness :
  SetOptions (E:=sample) 17 {[ "Port" := "8443" ]} both_named_edge =
    (set_httpRepo
       {[ 17%N := {| http_id := 17; http_name := "edge";
                     http_options := {[ "Port" := "8443" ]};
                     http_server := edge_server |} ]} both_named_edge,
     Ok tt).
Proof.
  destruct (SetOptions_then_Listener (E:=sample) 17 {[ "Port" := "8443" ]}
              both_named_edge) as [Hhttp _].
  destruct (Hhttp web) as [Hset _]; [reflexivity|].
  exact Hset.
Defined.

(** ** Listings *)

Section listing_properties.
Context {E : Collaborators}.
Implicit Types (ls : ListenerService) (n : string).

Lemma length_All {T} (r : gmap UUID T) : length (Repository.All r) = size r.
Proof. unfold Repository.All. by rewrite length_fmap, length_map_to_list. Qed.

Lemma length_range_addresses {A} (xs : list A) :
  length (range_addresses xs) = length xs.
Proof.
  unfold range_addresses. destruct loopvar_per_iteration; [done|].
  destruct (last xs) as [x|] eqn:Hlast.
  - apply length_replicate.
  - by apply last_None in Hlast as ->.
Qed.

Lemma elem_of_names {T} (name : T → string) (r : gmap UUID T) n :
  n ∈ name <$> Repository.All r ↔ Repository.holds_name name n r.
Proof.
  rewrite list_elem_of_fmap. unfold Repository.holds_name. split.
  - intros (x & -> & [id Hid]%elem_of_All). by exists id, x.
  - intros (id & x & Hid & <-). exists x. split; [done|].
    apply elem_of_All. by exists id.
Qed.

(** X16.  The completion list of listener names, [List] and
    [ListenerNames]: whatever has been typed, it holds a name exactly when
    one of the two listener repositories holds a listener of that name, and
    it has one entry per stored listener. *)
Theorem List_names_of_stored_listeners ls (line : string) :
  (∀ n, n ∈ List ls line ↔
        Repository.holds_name http_name n (httpRepo ls)
        ∨ Repository.holds_name tcp_name n (tcpRepo ls))
  ∧ length (List ls line) = (size (httpRepo ls) + size (tcpRepo ls))%nat.
Proof.
  unfold List, ListenerNames. split.
  - intros n. by rewrite elem_of_app, !elem_of_names.
  - by rewrite length_app, !length_fmap, !length_All.
Qed.

(** X17.  ListenerByName succeeds for exactly the names that ListenerNames
    lists, and it never changes the world. *)
Theorem ListenerByName_iff_listed n (w : World) :
  ((∃ l, ListenerByName n w = (w, Ok l)) ↔ n ∈ ListenerNames (service w))
  ∧ fst (ListenerByName n w) = w.
Proof.
  unfold ListenerNames. rewrite elem_of_app, !elem_of_names.
  unfold ListenerByName.
  destruct (Repository.ByName http_name httpRepo_errors n (httpRepo (service w)))
    as [h|e|] eqn:Hhttp.
  { split; [|done]. split; [|by eauto].
    intros _. left. apply ByName_Ok in Hhttp as (id & ? & ?). by exists id, h. }
  all: assert (¬ Repository.holds_name http_name n (httpRepo (service w))) as Hno
    by (intros [h Hh]%(ByName_holds http_name httpRepo_errors); congruence).
  all: destruct (Repository.ByName tcp_name tcpRepo_errors n (tcpRepo (service w)))
    as [t|e'|] eqn:Htcp.
  all: split; [|done].
  all: try (split; [|by eauto]; intros _; right;
            apply ByName_Ok in Htcp as (id & ? & ?); by exists id, t).
  all: split; [by intros [l [=]]|].
  all: intros [Hh | [t Ht]%(ByName_holds tcp_name tcpRepo_errors)];
    [done | congruence].
Qed.

(** X18.  With one loop variable per iteration, Listeners returns the
    stored listeners: a listener is in the result exactly when one of the
    two repositories stores it, and there is one entry per stored
    listener. *)
Theorem Listeners_per_iteration ls :
  loopvar_per_iteration = true →
  (∀ l, l ∈ Listeners ls ↔
        (∃ id h, httpRepo ls !! id = Some h ∧ l = HTTPListener h)
        ∨ (∃ id t, tcpRepo ls !! id = Some t ∧ l = TCPListener t))
  ∧ length (Listeners ls) = (size (httpRepo ls) + size (tcpRepo ls))%nat.
Proof.
  intros Hgo. split.
  - intros l. unfold Listeners, range_addresses. rewrite Hgo.
    rewrite elem_of_app, !list_elem_of_fmap. split.
    + intros [(h & -> & [id Hid]%elem_of_All) | (t & -> & [id Hid]%elem_of_All)];
        [left | right]; eauto.
    + intros [(id & h & Hid & ->) | (id & t & Hid & ->)]; [left | right];
        (eexists; split; [done|]); apply elem_of_All; eauto.
  - unfold Listeners.
    by rewrite length_app, !length_fmap, !length_range_addresses, !length_All.
Qed.

(** X19.  With one variable for the whole loop, every pointer Listeners
    collects in a loop refers to that variable: the result still has one
    entry per stored listener, but all its HTTP-family entries are one and
    the same stored listener, and so are all its raw-socket entries. *)
Theorem Listeners_shared_loop_variable ls :
  loopvar_per_iteration = false →
  length (Listeners ls) = (size (httpRepo ls) + size (tcpRepo ls))%nat
  ∧ (∀ h1 h2, HTTPListener h1 ∈ Listeners ls → HTTPListener h2 ∈ Listeners ls →
              h1 = h2 ∧ ∃ id, httpRepo ls !! id = Some h1)
  ∧ (∀ t1 t2, TCPListener t1 ∈ Listeners ls → TCPListener t2 ∈ Listeners ls →
              t1 = t2 ∧ ∃ id, tcpRepo ls !! id = Some t1).
Proof.
  intros Hgo.
  assert (∀ {A} (xs : list A) x, x ∈ range_addresses xs → last xs = Some x)
    as Hlast.
  { intros A xs x. unfold range_addresses. rewrite Hgo.
    destruct (last xs) as [y|]; [|by intros ?%elem_of_nil].
    by intros ->%elem_of_replicate_inv. }
  split_and!.
  - unfold Listeners.
    by rewrite length_app, !length_fmap, !length_range_addresses, !length_All.
  - intros h1 h2. unfold Listeners. rewrite !elem_of_app, !list_elem_of_fmap.
    intros [(x1 & [= <-] & H1%Hlast) | (x1 & [=] & _)]
           [(x2 & [= <-] & H2%Hlast) | (x2 & [=] & _)].
    split; [congruence|]. by apply elem_of_All, last_Some_elem_of.
  - intros t1 t2. unfold Listeners. rewrite !elem_of_app, !list_elem_of_fmap.
    intros [(x1 & [=] & _) | (x1 & [= <-] & H1%Hlast)]
           [(x2 & [=] & _) | (x2 & [= <-] & H2%Hlast)].
    split; [congruence|]. by apply elem_of_All, last_Some_elem_of.
Qed.

End listing_properties.

Lemma Listeners_per_iteration_witness :
  HTTPListener front ∈ Listeners (E:=sample122) (service three_listeners)
  ∧ length (Listeners (E:=sample122) (service three_listeners)) = 3%nat.
Proof.
  destruct (Listeners_per_iteration (E:=sample122) (service three_listeners))
    as [Hin Hlen]; [reflexivity|].
  split; [|exact Hlen].
  apply Hin. left. exists 21%N, front. split; reflexivity.
Defined.

Lemma Listeners_shared_loop_variable_witness :
  length (Listeners (E:=sample) (service three_listeners)) = 3%nat
  ∧ ∃ h, Listeners (E:=sample) (service three_listeners) =
           [HTTPListener h; HTTPListener h; TCPListener raw].
Proof.
  destruct (Listeners_shared_loop_variable (E:=sample) (service three_listeners))
    as (Hlen & _ & _); [reflexivity|].
  split; [exact Hlen|]. eexists. reflexivity.
Defined.

(** ** Default options, continued *)

Section more_DefaultOptions_properties.
Context {E : Collaborators}.
Implicit Types (p n k : string).

Lemma UNKNOWN_not_HTTP : listeners_UNKNOWN ≠ listeners_HTTP.
Proof.
  pose proof listeners_tags_distinct as Hd.
  apply NoDup_cons in Hd as [Hd _]. intros Heq. apply Hd. rewrite Heq.
  apply list_elem_of_here.
Qed.

Lemma UNKNOWN_not_TCP : listeners_UNKNOWN ≠ listeners_TCP.
Proof.
  pose proof listeners_tags_distinct as Hd.
  apply NoDup_cons in Hd as [Hd _]. intros Heq. apply Hd. rewrite Heq.
  apply list_elem_of_further, list_elem_of_here.
Qed.

Lemma listeners_FromString_http p n :
  n ∈ http_family → casing_of p n = true →
  listeners_FromString p = listeners_HTTP.
Proof.
  intros Hn Hc. unfold listeners_FromString.
  rewrite (casing_of_ToLower p n (http_family_lower n Hn) Hc).
  by rewrite bool_decide_eq_true_2.
Qed.

Lemma listeners_FromString_tcp p :
  casing_of p raw_socket = true → listeners_FromString p = listeners_TCP.
Proof.
  intros Hc. unfold listeners_FromString.
  rewrite (casing_of_ToLower p raw_socket eq_refl Hc).
  rewrite (bool_decide_eq_false_2 _ raw_socket_not_http).
  by rewrite bool_decide_eq_true_2.
Qed.

Lemma listeners_FromString_unknown p :
  (∀ n, n ∈ raw_socket :: http_family → casing_of p n ≠ true) →
  listeners_FromString p = listeners_UNKNOWN.
Proof.
  intros Hno. unfold listeners_FromString.
  rewrite !bool_decide_eq_false_2; [done|..].
  - intros Heq. apply (Hno raw_socket); [apply list_elem_of_here|].
    rewrite <-Heq. apply casing_of_ToLower_self.
  - intros Hin. apply (Hno (ToLower p)); [by apply list_elem_of_further|].
    apply casing_of_ToLower_self.
Qed.

(** X21.  For an HTTP-family protocol in any letter-casing, DefaultOptions
    succeeds, and where the listener and the Server both have a default for
    a key, the returned map holds the Server's value: every key has the
    Server default if there is one, and the listener default otherwise. *)
Theorem DefaultOptions_Server_entries_win p n :
  n ∈ http_family →
  casing_of p n = true →
  ∃ m, DefaultOptions p = Ok m
       ∧ ∀ k, m !! k =
              match httpServer_GetDefaultOptions (servers_FromString p) !! k with
              | Some v => Some v
              | None => http_DefaultOptions !! k
              end.
Proof.
  intros Hn Hc. eexists. split.
  - apply DefaultOptions_HTTP. by apply (listeners_FromString_http p n).
  - intros k. rewrite lookup_union.
    destruct (httpServer_GetDefaultOptions (servers_FromString p) !! k);
      by destruct (http_DefaultOptions !! k).
Qed.

(** X22.  For the raw-socket protocol in any letter-casing, DefaultOptions
    returns exactly the default options of the raw-socket listener, with no
    Server option added.  For a protocol that is no letter-casing of a
    supported name it fails, and the error quotes the protocol as it was
    given, not lowered. *)
Theorem DefaultOptions_raw_socket_and_unsupported p :
  (casing_of p raw_socket = true → DefaultOptions p = Ok tcp_DefaultOptions)
  ∧ ((∀ n, n ∈ raw_socket :: http_family → casing_of p n ≠ true) →
     DefaultOptions p =
       Err ("pkg/services/listeners.DefaultOptions(): unhandled server type: "
            +:+ p)).
Proof.
  split.
  - intros Hc. by apply DefaultOptions_TCP, listeners_FromString_tcp.
  - intros Hno. unfold DefaultOptions.
    rewrite (listeners_FromString_unknown p Hno).
    rewrite (bool_decide_eq_false_2 _ UNKNOWN_not_HTTP).
    by rewrite (bool_decide_eq_false_2 _ UNKNOWN_not_TCP).
Qed.
End more_DefaultOptions_properties.

Lemma DefaultOptions_Server_entries_win_witness :
  ∃ m, DefaultOptions (E:=sample) "HTTPS" = Ok m
       ∧ m !! "Protocol" = Some "h2" ∧ m !! "PSK" = Some "merlin".
Proof.
  destruct (DefaultOptions_Server_entries_win (E:=sample) "HTTPS" "https")
    as (m & Hm & Hk).
  - apply (bool_decide_unpack _). vm_compute. exact I.
  - reflexivity.
  - exists m. split; [exact Hm|]. rewrite !Hk. split; reflexivity.
Defined.

Lemma DefaultOptions_raw_socket_and_unsupported_witness :
  DefaultOptions (E:=sample) "TcP" = Ok Sample.tcp_DefaultOptions
  ∧ DefaultOptions (E:=sample) "Smb" =
      Err "pkg/services/listeners.DefaultOptions(): unhandled server type: Smb".
Proof.
  split.
  - apply (proj1 (DefaultOptions_raw_socket_and_unsupported (E:=sample) "TcP")).
    reflexivity.
  - apply (proj2 (DefaultOptions_raw_socket_and_unsupported (E:=sample) "Smb")).
    intros n Hn.
    apply (Forall_forall (λ n, casing_of "Smb" n ≠ true) (raw_socket :: http_family));
      [|exact Hn].
    repeat constructor; discriminate.
Defined.

(** ** Command-line completion, continued *)

Section completer_properties.
Context {E : Collaborators} {V : Type}.
Variables (listener_types : list Z) (RegisteredServers : gmap Z V)
          (servers_Protocol : Z → string) (listeners_String : Z → string).

(** X23.  Whatever has been typed, CLICompleter offers a name exactly when
    it is the name of a registered server protocol and the HTTP listener
    type is among the listener types, or it is the name of a listener type
    other than HTTP.  The names of the stored listeners play no part. *)
Theorem CLICompleter_offers (line n : string) :
  n ∈ CLICompleter listener_types RegisteredServers servers_Protocol
        listeners_String line
  ↔ (listeners_HTTP ∈ listener_types
     ∧ ∃ k, is_Some (RegisteredServers !! k) ∧ n = servers_Protocol k)
    ∨ (∃ t, t ∈ listener_types ∧ t ≠ listeners_HTTP ∧ n = listeners_String t).
Proof.
  unfold CLICompleter. rewrite list_elem_of_bind. split.
  - intros (t & Hn & Ht). case_bool_decide as Heq.
    + left. subst t. split; [done|].
      apply list_elem_of_fmap in Hn as (k & -> & Hk).
      apply list_elem_of_fmap in Hk as ([k' v] & -> & Hkv).
      exists k'. split; [|done]. exists v. by apply elem_of_map_to_list.
    + right. exists t. apply list_elem_of_singleton in Hn. done.
  - intros [(Hhttp & k & [v Hv] & ->) | (t & Ht & Hne & ->)].
    + exists listeners_HTTP. split; [|done].
      rewrite bool_decide_eq_true_2 by done.
      apply list_elem_of_fmap. exists k. split; [done|].
      apply list_elem_of_fmap. exists (k, v). split; [done|].
      by apply elem_of_map_to_list.
    + exists t. split; [|done]. rewrite bool_decide_eq_false_2 by done.
      by apply list_elem_of_singleton.
Qed.
End completer_properties.
